(** * GSO reports: normalisation, classification, indicator matching,
      draft aggregation and export

    A shallow embedding of [apps/gso_reports] ([models.py], [utils.py],
    [views.py]) and the properties of its specification.

    Conventions.  Text is [string] over ASCII; characters above 127 are
    carried unchanged.  A cost held by an instance is a decimal number of
    any scale; the store keeps each cost column rounded to two places.  A
    table is the list of its rows in storage order, which is the order an
    unordered query set is iterated in; [.first()] on an unordered query set
    takes the row of least primary key. *)

From Stdlib Require Import ZArith List String Ascii Bool Lia DecimalString.
From stdpp Require Import base option list gmap strings.
Import ListNotations.
Open Scope string_scope.
Open Scope list_scope.
Open Scope Z_scope.

(** ** Python builtins *)
Module Py.

Inductive exn : Type :=
| IndexError
| KeyError
| ValueError (msg : string)
| DatabaseError
| IntegrityError
| MultipleObjectsReturned
| InvalidWorksheetName
| AttributeError
| FieldError
| InvalidOperation
| OverflowError.

Inductive result (A : Type) : Type :=
| Ok (a : A)
| Raise (e : exn).
Arguments Ok {A} a.
Arguments Raise {A} e.

#[global] Instance result_ret : MRet result := @Ok.
#[global] Instance result_bind : MBind result :=
  fun A B f r => match r with Ok a => f a | Raise e => Raise e end.

(** [bool(s)] for a string. *)
Definition truthy (s : string) : bool :=
  match s with "" => false | _ => true end.

(** [a or b] on strings. *)
Definition str_or (a b : string) : string := if truthy a then a else b.

Definition code (c : ascii) : N := N_of_ascii c.

Definition is_upper (c : ascii) : bool := (65 <=? code c)%N && (code c <=? 90)%N.

Definition lower_char (c : ascii) : ascii :=
  if is_upper c then ascii_of_N (code c + 32) else c.

(** [s.lower()] *)
Fixpoint lower (s : string) : string :=
  match s with
  | "" => ""
  | String c s' => String (lower_char c) (lower s')
  end.

(** Characters [str.split()] and [str.strip()] treat as white space. *)
Definition is_space (c : ascii) : bool :=
  ((9 <=? code c)%N && (code c <=? 13)%N) || ((28 <=? code c)%N && (code c <=? 32)%N).

Fixpoint lstrip (s : string) : string :=
  match s with
  | "" => ""
  | String c s' => if is_space c then lstrip s' else s
  end.

Fixpoint rstrip (s : string) : string :=
  match s with
  | "" => ""
  | String c s' =>
      match rstrip s' with
      | "" => if is_space c then "" else String c ""
      | r => String c r
      end
  end.

(** [s.strip()] *)
Definition strip (s : string) : string := rstrip (lstrip s).

(** [s.split(sep)] for a one-character separator: never empty. *)
Fixpoint split_on (sep : ascii) (s : string) : list string :=
  match s with
  | "" => [""]
  | String c s' =>
      if Ascii.eqb c sep then "" :: split_on sep s'
      else match split_on sep s' with
           | h :: t => String c h :: t
           | [] => [String c ""]
           end
  end.

(** [s.split()]: the maximal runs of characters that are not white space. *)
Fixpoint split_ws (s : string) : list string :=
  match s with
  | "" => []
  | String c s' =>
      if is_space c then split_ws s'
      else match s' with
           | "" => [String c ""]
           | String c' _ =>
               if is_space c' then String c "" :: split_ws s'
               else match split_ws s' with
                    | h :: t => String c h :: t
                    | [] => [String c ""]
                    end
           end
  end.

(** [l[0]] *)
Definition item0 {A : Type} (l : list A) : result A :=
  match l with
  | x :: _ => Ok x
  | [] => Raise IndexError
  end.

(** [needle in hay] *)
Fixpoint contains (needle hay : string) : bool :=
  String.prefix needle hay ||
  match hay with
  | "" => false
  | String _ hay' => contains needle hay'
  end.

Definition is_digit (c : ascii) : bool := (48 <=? code c)%N && (code c <=? 57)%N.

Definition digit_val (c : ascii) : Z := Z.of_N (code c) - 48.

(** The digit part of an integer literal: digits, single underscores only
    between two digits. *)
Fixpoint parse_digits (acc : Z) (after_digit : bool) (s : string) : option Z :=
  match s with
  | "" => if after_digit then Some acc else None
  | String c s' =>
      if is_digit c then parse_digits (acc * 10 + digit_val c) true s'
      else if Ascii.eqb c "_" && after_digit then
             match s' with
             | "" => None
             | String c' _ => if is_digit c' then parse_digits acc false s' else None
             end
      else None
  end.

(** [int(s)]: [None] stands for the [ValueError]. *)
Definition int (s : string) : option Z :=
  match strip s with
  | String "+" r => parse_digits 0 false r
  | String "-" r => Z.opp <$> parse_digits 0 false r
  | t => parse_digits 0 false t
  end.

(** [str(z)] *)
Definition str (z : Z) : string := NilZero.string_of_int (Z.to_int z).

(** [f"{z:02d}"] *)
Definition fmt_02d (z : Z) : string :=
  let s := str z in
  if (String.length s <? 2)%nat then "0" +:+ s else s.

(** [calendar.month_name]: thirteen entries, the first one empty. *)
Definition month_names : list string :=
  [""; "January"; "February"; "March"; "April"; "May"; "June"; "July";
   "August"; "September"; "October"; "November"; "December"].

(** [calendar.month_name[i]], negative indices counting from the end. *)
Definition month_name (i : Z) : result string :=
  let j := if i <? 0 then i + 13 else i in
  if (0 <=? j) && (j <? 13) then
    match nth_error month_names (Z.to_nat j) with
    | Some n => Ok n
    | None => Raise IndexError
    end
  else Raise IndexError.

End Py.


Import Py.

(** ** Decimal numbers *)
Module Decimal.

(** A finite [decimal.Decimal], or an [int] (exponent 0): the number
    [coefficient * 10 ^ exponent].  Two representations of one number are
    told apart here as they are in Python; the store only looks at the
    number.  Exponents stay within the limits of the context. *)
Record t := { coefficient : Z; exponent : Z }.

Definition of_int (n : Z) : t := {| coefficient := n; exponent := 0 |}.

(** An amount with two decimal places, as a cost column returns it. *)
Definition of_centavos (c : Z) : t := {| coefficient := c; exponent := -2 |}.

(** [bool(d)] *)
Definition truthy (d : t) : bool := negb (coefficient d =? 0).

(** [c / q] rounded to the nearest integer, a tie going to the even one
    ([ROUND_HALF_EVEN], the rounding of the default context). *)
Definition div_half_even (c q : Z) : Z :=
  let k := Z.abs c / q in
  let r := Z.abs c mod q in
  Z.sgn c * (if 2 * r <? q then k
             else if q <? 2 * r then k + 1
             else if Z.even k then k else k + 1).

(** The number of decimal digits of a coefficient. *)
Fixpoint digits_of (fuel : nat) (n : Z) : Z :=
  match fuel with
  | O => 1
  | S fuel' => if n <? 10 then 1 else 1 + digits_of fuel' (n / 10)
  end.

Definition digits (c : Z) : Z := digits_of (Z.to_nat (Z.log2 (Z.abs c))) (Z.abs c).

(** The precision of the default context. *)
Definition prec : Z := 28.

(** A result is rounded to the precision of the context. *)
Definition round_prec (d : t) : t :=
  if Z.abs (coefficient d) <? 10 ^ prec then d
  else
    let k := digits (coefficient d) - prec in
    {| coefficient := div_half_even (coefficient d) (10 ^ k); exponent := exponent d + k |}.

(** [a + b] *)
Definition add (a b : t) : t :=
  let e := Z.min (exponent a) (exponent b) in
  round_prec
    {| coefficient := coefficient a * 10 ^ (exponent a - e)
                      + coefficient b * 10 ^ (exponent b - e);
       exponent := e |}.

(** The coefficient of [d] brought to the exponent [e], rounded when digits
    are dropped. *)
Definition rescale (e : Z) (d : t) : Z :=
  if e <=? exponent d then coefficient d * 10 ^ (exponent d - e)
  else div_half_even (coefficient d) (10 ^ (e - exponent d)).

(** [d.quantize(Decimal("0.01"), context=Context(prec=max_digits))], as
    [django.db.backends.utils.format_number] prepares a decimal column of
    two places: the amount in centavos, or [None] for the
    [InvalidOperation] of an amount with more than [max_digits] digits. *)
Definition quantize2 (max_digits : Z) (d : t) : option Z :=
  let c := rescale (-2) d in
  if Z.abs c <? 10 ^ max_digits then Some c else None.

(** The number is a whole amount of centavos, written with at most two
    decimal places. *)
Definition two_places (d : t) : Prop := -2 <= exponent d.

(** The amount in centavos of a number with at most two decimal places. *)
Definition centavos (d : t) : Z := coefficient d * 10 ^ (exponent d + 2).

End Decimal.

(** ** Dates *)
Record date := { year : Z; month : Z; day : Z }.

(** A [datetime.datetime]: the day, the time of day in microseconds and the
    attached zone, absent on a naive value. *)
Record datetime := { dt_date : date; dt_time : Z; dt_tz : option string }.

(** What a date attribute can hold: a [datetime.date] or a
    [datetime.datetime] (a subclass of it). *)
Inductive date_value : Type :=
| ADate (d : date)
| ADateTime (t : datetime).

(** [timezone.is_naive] *)
Definition is_naive (t : datetime) : bool :=
  match dt_tz t with None => true | Some _ => false end.

(** [datetime.combine(d, datetime.min.time())] *)
Definition combine_midnight (d : date) : datetime :=
  {| dt_date := d; dt_time := 0; dt_tz := None |}.

(** ** Models of the other applications *)

(** Modelled from the spec: the organisational unit, declared by
    [apps.gso_accounts.models.Unit] outside this application; a unit is
    looked up by name and compared by primary key. *)
Module Unit.
Record t := { pk : Z; name : string }.
End Unit.

(** Modelled from the spec: the person, declared by
    [apps.gso_accounts.models.User] outside this application; the fields
    are those the reports code reads, and [get_full_name] is the one of
    Django's [AbstractUser]. *)
Module User.
Record t := { pk : Z; first_name : string; last_name : string; username : string }.

Definition get_full_name (self : t) : string :=
  strip (first_name self +:+ " " +:+ last_name self).

(** [p.get_full_name() or p.username] *)
Definition display_name (self : t) : string :=
  str_or (get_full_name self) (username self).
End User.

(** Modelled from the spec: the raw request, declared by
    [apps.gso_requests.models.ServiceRequest] outside this application; the
    fields are those [normalize_report] and [map_activity_name_from_reports]
    read. *)
Module ServiceRequest.
Record t := {
  pk : Z;
  department : option string;      (* the department's name, when there is a department *)
  description : string;
  unit : option Unit.t;
  created_at : datetime;
  assigned_personnel : list User.t;
  status : string;
  rating : option Z;
  reports : list string            (* report_text of each task report *)
}.
End ServiceRequest.

(** ** models.py *)
Module ActivityName.
Record t := { pk : Z; name : string; keywords : string; is_active : bool }.

(** [[kw.strip().lower() for kw in self.keywords.split(",") if kw.strip()]] *)
Definition keyword_list (self : t) : list string :=
  List.map (fun kw => lower (strip kw))
    (List.filter (fun kw => truthy (strip kw)) (split_on "," (keywords self))).
End ActivityName.

Module SuccessIndicator.
Record t := {
  pk : Z;
  unit : Unit.t;
  code : string;
  description : string;
  is_active : bool
}.

(** [indicator.activity_name], read by [views.save_ipmt] and
    [views.preview_ipmt]: the class declares no such field and no such
    attribute, so the read raises. *)
Definition activity_name (self : t) : result string := Raise AttributeError.
End SuccessIndicator.

Module WorkAccomplishmentReport.
(** [pk] is absent until the first save.  A cost attribute holds [None], a
    [Decimal] or an [int]; the [float] default [0.00] of a new instance
    behaves as the decimal zero, other [float] values are left out. *)
Record t := {
  pk : option Z;
  request : option ServiceRequest.t;
  unit : Unit.t;
  assigned_personnel : list User.t;
  date_started : date_value;
  date_completed : option date;
  project_name : option string;
  description : string;
  status : string;
  material_cost : option Decimal.t;
  labor_cost : option Decimal.t;
  total_cost : option Decimal.t;
  control_number : option string;
  created_at : datetime
}.

(** [war.activity_name], read by [ai_service/tasks.py]: the class declares
    no such field and no such attribute, so the read raises. *)
Definition activity_name (self : t) : result string := Raise AttributeError.

Definition with_pk (k : Z) (w : t) : t :=
  Build_t (Some k) (request w) (unit w) (assigned_personnel w) (date_started w)
    (date_completed w) (project_name w) (description w) (status w)
    (material_cost w) (labor_cost w) (total_cost w) (control_number w)
    (created_at w).

Definition with_total_cost (c : option Decimal.t) (w : t) : t :=
  Build_t (pk w) (request w) (unit w) (assigned_personnel w) (date_started w)
    (date_completed w) (project_name w) (description w) (status w)
    (material_cost w) (labor_cost w) c (control_number w)
    (created_at w).

Definition with_costs (m l c : option Decimal.t) (w : t) : t :=
  Build_t (pk w) (request w) (unit w) (assigned_personnel w) (date_started w)
    (date_completed w) (project_name w) (description w) (status w)
    m l c (control_number w) (created_at w).

(** [setattr(dst, f, getattr(src, f))] for a column [f] that a save can
    write; [None] when [f] names no such column. *)
Definition assign (f : string) (src dst : t) : option t :=
  let mk rq un ds dc pn de st mc lc tc cn :=
    Some (Build_t (pk dst) rq un (assigned_personnel dst) ds dc pn de st mc lc tc cn
            (created_at dst)) in
  let keep := mk (request dst) (unit dst) (date_started dst) (date_completed dst)
                 (project_name dst) in
  if String.eqb f "request" then
    mk (request src) (unit dst) (date_started dst) (date_completed dst) (project_name dst)
       (description dst) (status dst) (material_cost dst) (labor_cost dst) (total_cost dst)
       (control_number dst)
  else if String.eqb f "unit" then
    mk (request dst) (unit src) (date_started dst) (date_completed dst) (project_name dst)
       (description dst) (status dst) (material_cost dst) (labor_cost dst) (total_cost dst)
       (control_number dst)
  else if String.eqb f "date_started" then
    mk (request dst) (unit dst) (date_started src) (date_completed dst) (project_name dst)
       (description dst) (status dst) (material_cost dst) (labor_cost dst) (total_cost dst)
       (control_number dst)
  else if String.eqb f "date_completed" then
    mk (request dst) (unit dst) (date_started dst) (date_completed src) (project_name dst)
       (description dst) (status dst) (material_cost dst) (labor_cost dst) (total_cost dst)
       (control_number dst)
  else if String.eqb f "project_name" then
    mk (request dst) (unit dst) (date_started dst) (date_completed dst) (project_name src)
       (description dst) (status dst) (material_cost dst) (labor_cost dst) (total_cost dst)
       (control_number dst)
  else if String.eqb f "description" then
    keep (description src) (status dst) (material_cost dst) (labor_cost dst) (total_cost dst)
         (control_number dst)
  else if String.eqb f "status" then
    keep (description dst) (status src) (material_cost dst) (labor_cost dst) (total_cost dst)
         (control_number dst)
  else if String.eqb f "material_cost" then
    keep (description dst) (status dst) (material_cost src) (labor_cost dst) (total_cost dst)
         (control_number dst)
  else if String.eqb f "labor_cost" then
    keep (description dst) (status dst) (material_cost dst) (labor_cost src) (total_cost dst)
         (control_number dst)
  else if String.eqb f "total_cost" then
    keep (description dst) (status dst) (material_cost dst) (labor_cost dst) (total_cost src)
         (control_number dst)
  else if String.eqb f "control_number" then
    keep (description dst) (status dst) (material_cost dst) (labor_cost dst) (total_cost dst)
         (control_number src)
  else None.

Fixpoint assign_fields (fs : list string) (src dst : t) : option t :=
  match fs with
  | [] => Some dst
  | f :: fs' =>
      match assign f src dst with
      | Some d => assign_fields fs' src d
      | None => None
      end
  end.

(** The table: its rows and the next value of the primary-key sequence. *)
Record table := { rows : list t; next_pk : Z }.

Definition has_pk (k : Z) (r : t) : bool :=
  match pk r with Some k' => k' =? k | None => false end.

Definition replace_row (k : Z) (new : t) (l : list t) : list t :=
  List.map (fun r => if has_pk k r then new else r) l.

(** [x or 0] on a cost: [None] and a zero give the integer 0. *)
Definition or0 (c : option Decimal.t) : Decimal.t :=
  match c with
  | Some v => if Decimal.truthy v then v else Decimal.of_int 0
  | None => Decimal.of_int 0
  end.

(** [f in fs] *)
Definition names (f : string) (fs : list string) : bool :=
  existsb (String.eqb f) fs.

(** [max_digits] of the three cost columns. *)
Definition max_digits : Z := 12.

(** What the store is handed for a cost: the amount rounded to two places,
    [None] staying [None]. *)
Definition prepare_cost (c : option Decimal.t) : result (option Decimal.t) :=
  match c with
  | None => Ok None
  | Some d =>
      match Decimal.quantize2 max_digits d with
      | Some centavos => Ok (Some (Decimal.of_centavos centavos))
      | None => Raise InvalidOperation
      end
  end.

(** The instance with the cost columns that are written prepared for the
    store. *)
Definition prepare (written : string -> bool) (self : t) : result t :=
  m ← (if written "material_cost" then prepare_cost (material_cost self)
       else Ok (material_cost self));
  l ← (if written "labor_cost" then prepare_cost (labor_cost self)
       else Ok (labor_cost self));
  c ← (if written "total_cost" then prepare_cost (total_cost self)
       else Ok (total_cost self));
  Ok (with_costs m l c self).

Definition is_null (c : option Decimal.t) : bool :=
  match c with Some _ => false | None => true end.

(** A written cost column is [NULL]; the three columns are NOT NULL. *)
Definition nulls (written : string -> bool) (row : t) : bool :=
  (written "material_cost" && is_null (material_cost row))
  || (written "labor_cost" && is_null (labor_cost row))
  || (written "total_cost" && is_null (total_cost row)).

Section Save.
(** The other constraints the store checks when it writes a row (the unique
    control number, the referenced rows). *)
Variable db_accepts : list t -> t -> bool.

(** [models.Model.save]: with [update_fields] only the named columns of the
    existing row are written; without, the whole row is updated or
    inserted.  The values are prepared before the statement is run, and the
    instance is not read back: it keeps the values it had. *)
Definition Model_save (update_fields : option (list string)) (self : t)
    (tbl : table) : table * result t :=
  match update_fields with
  | Some [] => (tbl, Ok self)
  | Some fs =>
      match assign_fields fs self self, pk self with
      | None, _ => (tbl, Raise (ValueError "The following fields do not exist in this model"))
      | Some _, None =>
          (tbl, Raise (ValueError "Cannot force an update in save() with no primary key."))
      | Some _, Some k =>
          match prepare (fun f => names f fs) self with
          | Raise e => (tbl, Raise e)
          | Ok row =>
              match List.find (has_pk k) (rows tbl) with
              | None => (tbl, Raise DatabaseError)
              | Some old =>
                  match assign_fields fs row old with
                  | None => (tbl, Raise DatabaseError)
                  | Some new =>
                      if nulls (fun f => names f fs) row || negb (db_accepts (rows tbl) new)
                      then (tbl, Raise IntegrityError)
                      else ({| rows := replace_row k new (rows tbl);
                               next_pk := next_pk tbl |}, Ok self)
                  end
              end
          end
      end
  | None =>
      match prepare (fun _ => true) self with
      | Raise e => (tbl, Raise e)
      | Ok row =>
          match pk self with
          | Some k =>
              if nulls (fun _ => true) row || negb (db_accepts (rows tbl) row)
              then (tbl, Raise IntegrityError)
              else if existsb (has_pk k) (rows tbl)
              then ({| rows := replace_row k row (rows tbl); next_pk := next_pk tbl |},
                    Ok self)
              else ({| rows := (rows tbl ++ [row])%list;
                       next_pk := Z.max (next_pk tbl) (k + 1) |}, Ok self)
          | None =>
              let row' := with_pk (next_pk tbl) row in
              if nulls (fun _ => true) row' || negb (db_accepts (rows tbl) row')
              then (tbl, Raise IntegrityError)
              else ({| rows := (rows tbl ++ [row'])%list; next_pk := next_pk tbl + 1 |},
                    Ok (with_pk (next_pk tbl) self))
          end
      end
  end.

(** [WorkAccomplishmentReport.save]: the total is recomputed on the
    instance, then the instance is handed to [Model.save]. *)
Definition save (update_fields : option (list string)) (self : t)
    (tbl : table) : table * result t :=
  Model_save update_fields
    (with_total_cost (Some (Decimal.add (or0 (material_cost self)) (or0 (labor_cost self))))
       self) tbl.

End Save.
End WorkAccomplishmentReport.

Module IPMTDraft.
(** Foreign keys are held as the referenced primary key; [reports] is the
    set of linked accomplishment reports. *)
Record t := {
  pk : Z;
  personnel_id : Z;
  unit_id : Z;
  month : string;
  indicator_id : Z;
  accomplishment : option string;
  remarks : option string;
  status : string;
  created_at : datetime;
  updated_at : datetime;
  reports : gset Z
}.
End IPMTDraft.

(** ** Query sets *)

(** A list that may be absent, as a truth value: absent is empty. *)
Definition given {A : Type} (l : option (list A)) : list A :=
  match l with Some l' => l' | None => [] end.

(** The tables the reports code reads. *)
Record Database := {
  units : list Unit.t;
  users : list User.t;
  activity_names : list ActivityName.t;
  success_indicators : list SuccessIndicator.t;
  wars : list WorkAccomplishmentReport.t;
  ipmt_drafts : list IPMTDraft.t
}.

(** [qs.first()] on an unordered query set: the row of least primary key. *)
Fixpoint qs_first {A : Type} (pk : A -> Z) (l : list A) : option A :=
  match l with
  | [] => None
  | x :: l' =>
      match qs_first pk l' with
      | Some y => if pk y <? pk x then Some y else Some x
      | None => Some x
      end
  end.

(** [qs.get()] *)
Definition qs_get {A : Type} (l : list A) : result (option A) :=
  match l with
  | [] => Ok None                      (* DoesNotExist, caught by every caller *)
  | [x] => Ok (Some x)
  | _ => Raise MultipleObjectsReturned
  end.

(** The [iexact] lookup; against [None] it is [isnull], which no name
    satisfies. *)
Definition iexact (value : string) (pattern : option string) : bool :=
  match pattern with
  | Some p => String.eqb (lower value) (lower p)
  | None => false
  end.

Definition date_of (v : date_value) : date :=
  match v with ADate d => d | ADateTime t => dt_date t end.

(** [date_started__year=y, date_started__month=m], as the condition on a
    row; the month is compared as a number of any size. *)
Definition in_month (y m : Z) (w : WorkAccomplishmentReport.t) : bool :=
  let d := date_of (WorkAccomplishmentReport.date_started w) in
  (year d =? y) && (month d =? m).

(** The bounds of a [__year] lookup, [datetime.date(y, 1, 1)] and
    [datetime.date(y, 12, 31)]: they are taken when a query with the lookup
    is run, not when it is built.  A year outside 1..9999 is no year of a
    date, and a year that does not fit a C [int] is refused as an
    argument. *)
Definition year_lookup (y : Z) : result Datatypes.unit :=
  if (1 <=? y) && (y <=? 9999) then Ok tt
  else if (- 2 ^ 31 <=? y) && (y <? 2 ^ 31)
  then Raise (ValueError ("year " +:+ str y +:+ " is out of range"))
  else Raise OverflowError.

(** Running a query set that was built with a [__year] lookup; the rows
    are fetched once and kept. *)
Definition run_query {A : Type} (y : Z) (rows : list A) : result (list A) :=
  year_lookup y ;; Ok rows.

(** ** utils.py *)
Module utils.

(** The objects [normalize_report] can be handed: the two record classes
    and anything else, known by its class name. *)
Inductive obj : Type :=
| AServiceRequest (r : ServiceRequest.t)
| AWorkAccomplishmentReport (w : WorkAccomplishmentReport.t)
| AnotherObject (class_name : string).

(** The dict [normalize_report] returns. *)
Record NormalizedReport := {
  type : string;
  source : string;
  requesting_office : string;
  nr_description : string;
  nr_unit : string;
  date : datetime;
  personnel : list string;
  nr_status : string;
  nr_rating : option Z
}.

(** A row of [collect_ipmt_reports]. *)
Record IpmtRow := {
  indicator : string;
  description : string;
  remarks : option string;
  war_id : option Z
}.

(** A cell of a data frame. *)
Inductive cell : Type :=
| CText (s : string)
| CNumber (z : Z)
| CEmpty.

(** A worksheet: its title, the header and body of the table written at
    the top left corner, and the cells written beside it. *)
Record Sheet := {
  title : string;
  header : list string;
  data : list (list cell);
  notes : list (Z * Z * string)
}.

Definition Workbook := list Sheet.

(** [[f(p) for p in l]] for an [f] that can raise: the first exception
    ends the comprehension. *)
Definition comprehension {A B : Type} (f : A -> result B) (l : list A) : result (list B) :=
  mapM f l.

(** [[p.get_full_name() or p.username for p in assigned]
     if assigned.exists() else ["Unassigned"]] *)
Definition personnel_list (assigned : list User.t) : list string :=
  match assigned with
  | [] => ["Unassigned"]
  | _ => List.map User.display_name assigned
  end.

(** ["all" in [p.lower() for p in personnel_names]] *)
Definition names_all (personnel_names : list string) : bool :=
  existsb (String.eqb "all") (List.map lower personnel_names).

Section Utils.
(** [settings.TIME_ZONE], the zone [timezone.make_aware] attaches. *)
Variable current_tz : string.

(** The sheet names the spreadsheet writer takes, given the titles already
    in the workbook (length, forbidden characters, duplicates). *)
Variable writer_accepts : list string -> string -> bool.

(** [timezone.make_aware] *)
Definition make_aware (t : datetime) : result datetime :=
  if is_naive t
  then Ok {| dt_date := dt_date t; dt_time := dt_time t; dt_tz := Some current_tz |}
  else Raise (ValueError "make_aware expects a naive datetime").

Definition normalize_report (o : obj) : result (option NormalizedReport) :=
  match o with
  | AServiceRequest r =>
      let personnel_list := personnel_list (ServiceRequest.assigned_personnel r) in
      Ok (Some {|
        type := "ServiceRequest";
        source := "Live";
        requesting_office :=
          match ServiceRequest.department r with Some d => d | None => "" end;
        nr_description := ServiceRequest.description r;
        nr_unit := match ServiceRequest.unit r with Some u => Unit.name u | None => "" end;
        date := ServiceRequest.created_at r;
        personnel := personnel_list;
        nr_status := ServiceRequest.status r;
        nr_rating := ServiceRequest.rating r |})
  | AWorkAccomplishmentReport w =>
      date_value ←
        match WorkAccomplishmentReport.date_started w with
        | ADateTime t => if is_naive t then make_aware t else Ok t
        | ADate d => make_aware (combine_midnight d)
        end;
      let personnel_list := personnel_list (WorkAccomplishmentReport.assigned_personnel w) in
      let request := WorkAccomplishmentReport.request w in
      Ok (Some {|
        type := "WorkAccomplishmentReport";
        source := match request with Some _ => "Live" | None => "Migrated" end;
        requesting_office :=
          match request ≫= ServiceRequest.department with
          | Some d => d
          | None => ""      (* getattr(obj, "requesting_office", ""): no such attribute *)
          end;
        nr_description := WorkAccomplishmentReport.description w;
        nr_unit :=
          match request ≫= ServiceRequest.unit with
          | Some u => Unit.name u
          | None => Unit.name (WorkAccomplishmentReport.unit w)
          end;
        date := date_value;
        personnel := personnel_list;
        nr_status := str_or (WorkAccomplishmentReport.status w) "Completed";
        nr_rating := None |})  (* getattr(obj, "rating", None): no such attribute *)
  | AnotherObject _ => Ok None
  end.

(** [ActivityName.objects.filter(name="Miscellaneous").first()] *)
Definition miscellaneous (db : Database) : option ActivityName.t :=
  qs_first ActivityName.pk
    (List.filter (fun a => String.eqb (ActivityName.name a) "Miscellaneous")
       (activity_names db)).

(** [any(kw in description for kw in activity.keyword_list())] *)
Definition keyword_hit (description : string) (activity : ActivityName.t) : bool :=
  existsb (fun kw => contains kw description) (ActivityName.keyword_list activity).

Definition map_activity_name (db : Database) (description : string)
    : option ActivityName.t :=
  if negb (truthy description) then miscellaneous db
  else
    let description := lower description in
    match List.find (keyword_hit description) (activity_names db) with
    | Some activity => Some activity
    | None => miscellaneous db
    end.

(** [" ".join(l)] *)
Fixpoint join_space (l : list string) : string :=
  match l with
  | [] => ""
  | [x] => x
  | x :: l' => x +:+ " " +:+ join_space l'
  end.

Definition map_activity_name_from_reports (db : Database) (service_request : ServiceRequest.t)
    : option ActivityName.t :=
  let task_reports_text := join_space (ServiceRequest.reports service_request) in
  match map_activity_name db task_reports_text with
  | Some a => Some a
  | None => map_activity_name db (ServiceRequest.description service_request)
  end.

(** [wars.filter(assigned_personnel__first_name__in=names)]: the join
    yields a report once for each assigned person the lookup matches. *)
Definition filter_first_name_in (names : list string)
    (wars : list WorkAccomplishmentReport.t) : list WorkAccomplishmentReport.t :=
  flat_map
    (fun w =>
       List.map (fun _ => w)
         (List.filter (fun p => existsb (String.eqb (User.first_name p)) names)
            (WorkAccomplishmentReport.assigned_personnel w)))
    wars.

(** [indicator.description.lower() in (war.description or "").lower()] *)
Definition indicator_matches (indicator : SuccessIndicator.t)
    (war : WorkAccomplishmentReport.t) : bool :=
  contains (lower (SuccessIndicator.description indicator))
    (lower (str_or (WorkAccomplishmentReport.description war) "")).

(** [f"{year}-{month_num:02d}"] *)
Definition month_key (year month_num : Z) : string :=
  str year +:+ "-" +:+ fmt_02d month_num.

(** The candidate reports of a call: unit and month, then the optional
    personnel filter.  The query set is built here and run later; the first
    words of the names are taken at once. *)
Definition candidates (db : Database) (unit : Unit.t) (year month_num : Z)
    (personnel_names : option (list string)) : result (list WorkAccomplishmentReport.t) :=
  let wars :=
    List.filter
      (fun w => (Unit.pk (WorkAccomplishmentReport.unit w) =? Unit.pk unit)
                && in_month year month_num w)
      (wars db) in
  match given personnel_names with
  | [] => Ok wars
  | names =>
      if names_all names then Ok wars
      else
        first_names ← comprehension (fun p => item0 (split_ws p)) names;
        Ok (filter_first_name_in first_names wars)
  end.

(** The body of the loop over indicators. *)
Definition report_row (db : Database) (unit : Unit.t) (year month_num : Z)
    (wars : list WorkAccomplishmentReport.t) (indicator : SuccessIndicator.t) : IpmtRow :=
  let matched_war := List.find (indicator_matches indicator) wars in
  let description :=
    match matched_war with
    | Some w => WorkAccomplishmentReport.description w
    | None => ""
    end in
  let ipmt_draft :=
    qs_first IPMTDraft.pk
      (List.filter
         (fun d => (IPMTDraft.indicator_id d =? SuccessIndicator.pk indicator)
                   && (IPMTDraft.unit_id d =? Unit.pk unit)
                   && String.eqb (IPMTDraft.month d) (month_key year month_num))
         (ipmt_drafts db)) in
  let remarks :=
    match ipmt_draft with
    | Some d => IPMTDraft.remarks d
    | None => Some ""
    end in
  {| indicator := SuccessIndicator.code indicator;
     description := description;
     remarks := remarks;
     war_id := matched_war ≫= WorkAccomplishmentReport.pk |}.

(** [SuccessIndicator.objects.filter(unit=unit, is_active=True)] *)
Definition active_indicators (db : Database) (unit : Unit.t) : list SuccessIndicator.t :=
  List.filter
    (fun i => (Unit.pk (SuccessIndicator.unit i) =? Unit.pk unit)
              && SuccessIndicator.is_active i)
    (success_indicators db).

Definition collect_ipmt_reports (db : Database) (year month_num : Z)
    (unit_name : option string) (personnel_names : option (list string))
    : result (list IpmtRow) :=
  found ← qs_get (List.filter (fun u => iexact (Unit.name u) unit_name) (units db));
  match found with
  | None => Ok []
  | Some unit =>
      let indicators := active_indicators db unit in
      wars ← candidates db unit year month_num personnel_names;
      comprehension
        (fun indicator =>
           wars ← run_query year wars;
           Ok (report_row db unit year month_num wars indicator))
        indicators
  end.

(** [year, month_num = map(int, month_filter.split("-"))], any
    [ValueError] replaced by the one of the format message. *)
Definition parse_month_filter (month_filter : string) : result (Z * Z) :=
  match List.map int (split_on "-" month_filter) with
  | [Some year; Some month_num] => Ok (year, month_num)
  | _ => Raise (ValueError "Month filter must be in 'YYYY-MM' format.")
  end.

(** [list(set(l))]; the order a Python set is listed in is unspecified,
    first occurrences are kept here. *)
Definition list_set (l : list string) : list string :=
  fold_left (fun acc x => if existsb (String.eqb x) acc then acc else (acc ++ [x])%list) l [].

(** A data frame: column names and rows. *)
Definition DataFrame : Type := list string * list (list cell).

(** [pd.DataFrame(reports)] *)
Definition data_frame (reports : list IpmtRow) : DataFrame :=
  match reports with
  | [] => ([], [])
  | _ =>
      (["indicator"; "description"; "remarks"; "war_id"],
       List.map
         (fun r => [CText (indicator r); CText (description r);
                    match remarks r with Some t => CText t | None => CEmpty end;
                    match war_id r with Some k => CNumber k | None => CEmpty end])
         reports)
  end.

Definition placeholder_frame : DataFrame :=
  (["indicator"; "description"; "remarks"], [[CText "N/A"; CText "No reports"; CText ""]]).

(** [df.rename(columns={...})] *)
Definition rename_column (c : string) : string :=
  if String.eqb c "indicator" then "Success Indicator"
  else if String.eqb c "description" then "Accomplishment"
  else if String.eqb c "remarks" then "Remarks"
  else c.

(** [(person[:30] if len(person) > 30 else person) or "Unassigned"] *)
Definition sheet_title (person : string) : string :=
  str_or (if (30 <? String.length person)%nat then String.substring 0 30 person else person)
    "Unassigned".

(** The body of the loop over persons: the sheet of one person. *)
Definition person_sheet (db : Database) (year month_num : Z) (unit_name : option string)
    (titles : list string) (person : string) : result Sheet :=
  reports ← collect_ipmt_reports db year month_num unit_name (Some [person]);
  let df := data_frame reports in
  let df := match snd df with [] => placeholder_frame | _ => df end in
  let df := (List.map rename_column (fst df), snd df) in
  let sheet_title := sheet_title person in
  if negb (writer_accepts titles sheet_title) then Raise InvalidWorksheetName
  else
    label ← month_name month_num;
    Ok {| title := sheet_title;
          header := fst df;
          data := snd df;
          notes :=
            ([(0, 4, "Month: " +:+ label +:+ " " +:+ str year);
              (1, 4, "Personnel: " +:+ person)]
             ++ match unit_name with
                | Some u => if truthy u then [(2, 4, "Unit: " +:+ u)] else []
                | None => []
                end)%list |}.

Fixpoint write_sheets (db : Database) (year month_num : Z) (unit_name : option string)
    (personnel_names : list string) (written : list Sheet) : result (list Sheet) :=
  match personnel_names with
  | [] => Ok written
  | person :: rest =>
      sheet ← person_sheet db year month_num unit_name (List.map title written) person;
      write_sheets db year month_num unit_name rest (written ++ [sheet])%list
  end.

(** Everybody with a report in the month, optionally within a unit: the
    names the query yields once it is run. *)
Definition everybody (db : Database) (year month_num : Z) (unit_name : option string)
    : list string :=
  let wars := List.filter (in_month year month_num) (wars db) in
  let wars :=
    match unit_name with
    | Some u =>
        if truthy u && negb (String.eqb (lower u) "all")
        then List.filter
               (fun w => iexact (Unit.name (WorkAccomplishmentReport.unit w)) (Some u)) wars
        else wars
    | None => wars
    end in
  list_set
    (flat_map
       (fun w => List.map User.display_name (WorkAccomplishmentReport.assigned_personnel w))
       wars).

(** The sheet a workbook closed without any sheet is given by the writer. *)
Definition default_sheet : Sheet :=
  {| title := "Sheet1"; header := []; data := []; notes := [] |}.

(** The persons a workbook gets a sheet for: those named, or everybody
    when nobody or ["all"] is named. *)
Definition sheet_persons (db : Database) (year month_num : Z) (unit_name : option string)
    (personnel_names : option (list string)) : list string :=
  match given personnel_names with
  | [] => everybody db year month_num unit_name
  | names => if names_all names then everybody db year month_num unit_name else names
  end.

(** [not personnel_names or "all" in [p.lower() for p in personnel_names]] *)
Definition nobody_named (personnel_names : option (list string)) : bool :=
  match given personnel_names with
  | [] => true
  | names => names_all names
  end.

Definition generate_ipmt_excel (db : Database) (month_filter : string)
    (unit_name : option string) (personnel_names : option (list string)) : result Workbook :=
  '(year, month_num) ← parse_month_filter month_filter;
  personnel_names ←
    (if nobody_named personnel_names
     then year_lookup year ;; Ok (everybody db year month_num unit_name)
     else Ok (given personnel_names));
  sheets ← write_sheets db year month_num unit_name personnel_names [];
  Ok (match sheets with [] => [default_sheet] | _ => sheets end).

(** The row of the placeholder frame once its columns are renamed. *)
Definition placeholder_header : list string :=
  ["Success Indicator"; "Accomplishment"; "Remarks"].

Definition placeholder_rows : list (list cell) :=
  [[CText "N/A"; CText "No reports"; CText ""]].

End Utils.
End utils.

(** ** views.py *)

(** Modelled from the spec: the model [IPMT] that [views.py] imports from
    [models.py] has no declaration there.  It is taken to be the draft
    model that [models.py] does declare, [IPMTDraft], the performance draft
    of the specification, with all its columns. *)
Module IPMT.
Definition t : Type := IPMTDraft.t.

(** The table: its rows and the next value of the primary-key sequence. *)
Record table := { rows : list t; next_pk : Z }.

(** The lookup [personnel=user, unit=unit, month=month, indicator=indicator]. *)
Record key := { k_personnel : Z; k_unit : Z; k_month : string; k_indicator : Z }.

Definition has_key (k : key) (r : t) : bool :=
  (IPMTDraft.personnel_id r =? k_personnel k) && (IPMTDraft.unit_id r =? k_unit k)
  && String.eqb (IPMTDraft.month r) (k_month k)
  && (IPMTDraft.indicator_id r =? k_indicator k).

(** The defaults of an upsert written to a row; [updated_at] is [auto_now]. *)
Definition with_defaults (accomplishment' remarks' : string) (now : datetime) (r : t) : t :=
  {| IPMTDraft.pk := IPMTDraft.pk r; IPMTDraft.personnel_id := IPMTDraft.personnel_id r;
     IPMTDraft.unit_id := IPMTDraft.unit_id r; IPMTDraft.month := IPMTDraft.month r;
     IPMTDraft.indicator_id := IPMTDraft.indicator_id r;
     IPMTDraft.accomplishment := Some accomplishment';
     IPMTDraft.remarks := Some remarks'; IPMTDraft.status := IPMTDraft.status r;
     IPMTDraft.created_at := IPMTDraft.created_at r; IPMTDraft.updated_at := now;
     IPMTDraft.reports := IPMTDraft.reports r |}.

Definition with_reports (s : gset Z) (r : t) : t :=
  {| IPMTDraft.pk := IPMTDraft.pk r; IPMTDraft.personnel_id := IPMTDraft.personnel_id r;
     IPMTDraft.unit_id := IPMTDraft.unit_id r; IPMTDraft.month := IPMTDraft.month r;
     IPMTDraft.indicator_id := IPMTDraft.indicator_id r;
     IPMTDraft.accomplishment := IPMTDraft.accomplishment r;
     IPMTDraft.remarks := IPMTDraft.remarks r; IPMTDraft.status := IPMTDraft.status r;
     IPMTDraft.created_at := IPMTDraft.created_at r;
     IPMTDraft.updated_at := IPMTDraft.updated_at r;
     IPMTDraft.reports := s |}.

(** The row [create] inserts: the lookup, the defaults, a draft status, the
    two time stamps and no link. *)
Definition fresh (n : Z) (k : key) (accomplishment' remarks' : string) (now : datetime) : t :=
  {| IPMTDraft.pk := n; IPMTDraft.personnel_id := k_personnel k;
     IPMTDraft.unit_id := k_unit k; IPMTDraft.month := k_month k;
     IPMTDraft.indicator_id := k_indicator k;
     IPMTDraft.accomplishment := Some accomplishment';
     IPMTDraft.remarks := Some remarks'; IPMTDraft.status := "draft";
     IPMTDraft.created_at := now; IPMTDraft.updated_at := now;
     IPMTDraft.reports := ∅ |}.

(** [UPDATE ... WHERE id = n] *)
Definition update_pk (n : Z) (f : t -> t) (l : list t) : list t :=
  List.map (fun r => if IPMTDraft.pk r =? n then f r else r) l.

End IPMT.

Module views.

(** A state and exception monad over the table of drafts. *)
Definition M (A : Type) : Type := IPMT.table -> IPMT.table * result A.

Definition ret {A : Type} (a : A) : M A := fun tbl => (tbl, Ok a).

Definition raise {A : Type} (e : exn) : M A := fun tbl => (tbl, Raise e).

Definition bind {A B : Type} (m : M A) (f : A -> M B) : M B :=
  fun tbl =>
    match m tbl with
    | (tbl', Ok a) => f a tbl'
    | (tbl', Raise e) => (tbl', Raise e)
    end.

(** A computation that reads and writes no draft. *)
Definition lift {A : Type} (r : result A) : M A := fun tbl => (tbl, r).

Notation "'do' x <- m ; k" := (bind m (fun x => k))
  (at level 10, x pattern, m at level 100, k at level 200).

(** [for x in l: body(x)] *)
Fixpoint for_each {A : Type} (l : list A) (body : A -> M unit) : M unit :=
  match l with
  | [] => ret tt
  | x :: l' => do _ <- body x; for_each l' body
  end.

(** An entry of ["rows"] in the posted JSON. *)
Record Row := {
  row_indicator : option string;
  row_war_ids : option (list Z);
  row_description : option string;
  row_accomplishment : option string;
  row_remarks : option string
}.

(** The posted JSON object, as the page of the preview sends it: a month and
    a unit that are texts, a list of names and a list of row objects, each
    member absent or present. *)
Record Payload := {
  p_month : option string;
  p_unit : option string;
  p_personnel : option (list string);
  p_rows : option (list Row)
}.

(** A request: its method and its body, [None] when it is not JSON. *)
Record Request := { method : string; body : option Payload }.

Inductive Response : Type :=
| JsonResponse (key value : string) (status : Z).

(** [d.get(k)] as a truth value and a text: an absent key is [None]. *)
Definition text (v : option string) : string :=
  match v with Some s => s | None => "" end.

(** [IPMT.objects.update_or_create] at the time [now]: the created or
    updated row. *)
Definition update_or_create (now : datetime) (k : IPMT.key) (accomplishment remarks : string)
    : M IPMT.t :=
  fun tbl =>
    match List.filter (IPMT.has_key k) (IPMT.rows tbl) with
    | [] =>
        let obj := IPMT.fresh (IPMT.next_pk tbl) k accomplishment remarks now in
        ({| IPMT.rows := (IPMT.rows tbl ++ [obj])%list;
            IPMT.next_pk := IPMT.next_pk tbl + 1 |}, Ok obj)
    | [old] =>
        let obj := IPMT.with_defaults accomplishment remarks now old in
        ({| IPMT.rows :=
              IPMT.update_pk (IPMTDraft.pk old)
                (IPMT.with_defaults accomplishment remarks now) (IPMT.rows tbl);
            IPMT.next_pk := IPMT.next_pk tbl |}, Ok obj)
    | _ => (tbl, Raise MultipleObjectsReturned)
    end.

(** The primary keys of a query set of reports, as a set. *)
Definition pks (wars : list WorkAccomplishmentReport.t) : gset Z :=
  list_to_set (omap WorkAccomplishmentReport.pk wars).

(** [ipmt_obj.reports.set(wars)]: the links of the draft become the given
    reports. *)
Definition reports_set (ipmt_obj : IPMT.t) (wars : gset Z) : M unit :=
  fun tbl =>
    ({| IPMT.rows :=
          IPMT.update_pk (IPMTDraft.pk ipmt_obj) (IPMT.with_reports wars) (IPMT.rows tbl);
        IPMT.next_pk := IPMT.next_pk tbl |}, Ok tt).

Section SaveIpmt.
(** [generate_ipmt_summary(indicator_code, war_descriptions)], imported
    from [utils.py], which does not define it: the text-summarisation
    service. *)
Variable generate_ipmt_summary : string -> list string -> string.

(** The time of the call, for the [auto_now] columns. *)
Variable now : datetime.

(** [User.objects.filter(first_name__iexact=person_name.split()[0]).first()
     or User.objects.filter(username__iexact=person_name).first()] *)
Definition resolve_user (db : Database) (person_name : string) : result (option User.t) :=
  first ← item0 (split_ws person_name);
  Ok (match qs_first User.pk
              (List.filter (fun u => iexact (User.first_name u) (Some first)) (users db)) with
      | Some u => Some u
      | None =>
          qs_first User.pk
            (List.filter (fun u => iexact (User.username u) (Some person_name)) (users db))
      end).

(** [SuccessIndicator.objects.filter(unit=unit, code=row["indicator"]).first()] *)
Definition resolve_indicator (db : Database) (unit : Unit.t) (code : string)
    : option SuccessIndicator.t :=
  qs_first SuccessIndicator.pk
    (List.filter
       (fun i => (Unit.pk (SuccessIndicator.unit i) =? Unit.pk unit)
                 && String.eqb (SuccessIndicator.code i) code)
       (success_indicators db)).

(** [WorkAccomplishmentReport.objects.filter(id__in=war_ids,
     assigned_personnel=user, activity_name=...)]: the model has no field
    [activity_name], and a query set refuses a lookup on a name that is no
    field when the filter is built. *)
Definition resolve_wars (db : Database) (war_ids : list Z) (user : User.t)
    (activity_name : string) : result (list WorkAccomplishmentReport.t) :=
  Raise FieldError.

(** The accomplishment text of a row: its own text, else a summary of the
    described reports. *)
Definition row_accomplishment_text (row : Row) (indicator : SuccessIndicator.t)
    (wars : list WorkAccomplishmentReport.t) : string :=
  let accomplishment :=
    str_or (text (row_description row)) (str_or (text (row_accomplishment row)) "") in
  if negb (truthy accomplishment) && negb (bool_decide (wars = [])) then
    let war_descriptions :=
      List.filter truthy (List.map WorkAccomplishmentReport.description wars) in
    match war_descriptions with
    | [] => accomplishment
    | _ => generate_ipmt_summary (SuccessIndicator.code indicator) war_descriptions
    end
  else accomplishment.

(** The body of the loop over rows.  The arguments of the filter are
    evaluated before the filter is called, [indicator.activity_name] among
    them. *)
Definition save_row (db : Database) (unit : Unit.t) (month : string) (user : User.t)
    (row : Row) : M Datatypes.unit :=
  match row_indicator row with
  | None => raise KeyError
  | Some code =>
      match resolve_indicator db unit code with
      | None => ret tt
      | Some indicator =>
          let war_ids := given (row_war_ids row) in
          do activity_name <- lift (SuccessIndicator.activity_name indicator);
          do wars <- lift (resolve_wars db war_ids user activity_name);
          let accomplishment := row_accomplishment_text row indicator wars in
          let remarks := str_or (text (row_remarks row)) accomplishment in
          do ipmt_obj <-
            update_or_create now
              {| IPMT.k_personnel := User.pk user; IPMT.k_unit := Unit.pk unit;
                 IPMT.k_month := month;
                 IPMT.k_indicator := SuccessIndicator.pk indicator |}
              accomplishment remarks;
          reports_set ipmt_obj (pks wars)
      end
  end.

(** The body of the loop over persons. *)
Definition save_person (db : Database) (unit : Unit.t) (month : string) (rows : list Row)
    (person_name : string) : M Datatypes.unit :=
  match resolve_user db person_name with
  | Raise e => raise e
  | Ok None => ret tt
  | Ok (Some user) => for_each rows (save_row db unit month user)
  end.

Definition save_ipmt (db : Database) (request : Request) : M Response :=
  if negb (String.eqb (method request) "POST")
  then ret (JsonResponse "error" "POST required" 400)
  else
    match body request with
    | None => ret (JsonResponse "error" "Invalid JSON" 400)
    | Some data =>
        let month := text (p_month data) in
        let unit_name := text (p_unit data) in
        let personnel_names := given (p_personnel data) in
        let rows := given (p_rows data) in
        if negb (truthy month) || negb (truthy unit_name)
           || bool_decide (personnel_names = []) || bool_decide (rows = [])
        then ret (JsonResponse "error" "Missing required data" 400)
        else
          match qs_first Unit.pk
                  (List.filter (fun u => iexact (Unit.name u) (Some unit_name)) (units db)) with
          | None =>
              ret (JsonResponse "error" ("Unit '" +:+ unit_name +:+ "' not found") 404)
          | Some unit =>
              do _ <- for_each personnel_names (save_person db unit month rows);
              ret (JsonResponse "status" "success" 200)
          end
    end.

End SaveIpmt.
End views.

(** ** The stored totals of accomplishment reports *)
Module WarStore.
Import WorkAccomplishmentReport.




(** A cost of an instance is a whole amount of centavos, when there is
    one. *)
Definition two_places (c : option Decimal.t) : Prop :=
  match c with
  | Some d => Decimal.two_places d
  | None => True
  end.

(** The tables that saves build, starting from an empty table. *)
Inductive reachable (db_accepts : list t -> t -> bool) : table -> Prop :=
| reach_empty n : reachable db_accepts {| rows := []; next_pk := n |}
| reach_save update_fields self tbl tbl' self' :
    reachable db_accepts tbl ->
    save db_accepts update_fields self tbl = (tbl', Ok self') ->
    reachable db_accepts tbl'.

End WarStore.

(** ** Sample data *)
Module Sample.

Definition engineering : Unit.t := {| Unit.pk := 1; Unit.name := "Engineering" |}.

Definition juan : User.t :=
  {| User.pk := 7; User.first_name := "Juan"; User.last_name := "Dela Cruz";
     User.username := "jdc" |}.

Definition cf1 : SuccessIndicator.t :=
  {| SuccessIndicator.pk := 3; SuccessIndicator.unit := engineering;
     SuccessIndicator.code := "CF1"; SuccessIndicator.description := "road repair";
     SuccessIndicator.is_active := true |}.

Definition midnight (y m d : Z) : datetime :=
  {| dt_date := {| year := y; month := m; day := d |}; dt_time := 0; dt_tz := None |}.

(** A report not yet saved. *)
Definition road_repair : WorkAccomplishmentReport.t :=
  {| WorkAccomplishmentReport.pk := None;
     WorkAccomplishmentReport.request := None;
     WorkAccomplishmentReport.unit := engineering;
     WorkAccomplishmentReport.assigned_personnel := [juan];
     WorkAccomplishmentReport.date_started := ADate {| year := 2025; month := 9; day := 10 |};
     WorkAccomplishmentReport.date_completed := None;
     WorkAccomplishmentReport.project_name := None;
     WorkAccomplishmentReport.description := "Road Repair on Main St";
     WorkAccomplishmentReport.status := "Completed";
     WorkAccomplishmentReport.material_cost := Some (Decimal.of_int 1500);
     WorkAccomplishmentReport.labor_cost := Some (Decimal.of_centavos 25050);
     WorkAccomplishmentReport.total_cost := None;
     WorkAccomplishmentReport.control_number := None;
     WorkAccomplishmentReport.created_at := midnight 2025 9 10 |}.

(** The row the store holds once the report is saved: 1500.00, 250.50 and
    1750.50. *)
Definition stored_road_repair : WorkAccomplishmentReport.t :=
  WorkAccomplishmentReport.with_pk 11
    (WorkAccomplishmentReport.with_costs
       (Some (Decimal.of_centavos 150000)) (Some (Decimal.of_centavos 25050))
       (Some (Decimal.of_centavos 175050)) road_repair).


(** The stored report, loaded and given another material cost, 2000.00. *)
Definition repriced_road_repair : WorkAccomplishmentReport.t :=
  WorkAccomplishmentReport.with_costs
    (Some (Decimal.of_centavos 200000)) (Some (Decimal.of_centavos 25050))
    (Some (Decimal.of_centavos 175050)) stored_road_repair.

Definition plumbing : ActivityName.t :=
  {| ActivityName.pk := 1; ActivityName.name := "Plumbing";
     ActivityName.keywords := "Pipe, faucet"; ActivityName.is_active := false |}.

Definition miscellaneous : ActivityName.t :=
  {| ActivityName.pk := 2; ActivityName.name := "Miscellaneous";
     ActivityName.keywords := ""; ActivityName.is_active := true |}.

Definition db : Database :=
  {| units := [engineering]; users := [juan];
     activity_names := [plumbing; miscellaneous];
     success_indicators := [cf1]; wars := [stored_road_repair]; ipmt_drafts := [] |}.

(** The same data with a catalogue that has no fallback activity. *)
Definition db_without_fallback : Database :=
  {| units := [engineering]; users := [juan];
     activity_names := [plumbing];
     success_indicators := [cf1]; wars := [stored_road_repair]; ipmt_drafts := [] |}.

Definition no_wars : WorkAccomplishmentReport.table :=
  {| WorkAccomplishmentReport.rows := []; WorkAccomplishmentReport.next_pk := 11 |}.


(** A finalised draft of Juan for CF1 in September 2025, linked to the
    reports 5 and 6 by an earlier call. *)
Definition stale_draft : IPMT.t :=
  {| IPMTDraft.pk := 1; IPMTDraft.personnel_id := 7; IPMTDraft.unit_id := 1;
     IPMTDraft.month := "2025-09"; IPMTDraft.indicator_id := 3;
     IPMTDraft.accomplishment := None; IPMTDraft.remarks := None;
     IPMTDraft.status := "final";
     IPMTDraft.created_at := midnight 2025 9 30; IPMTDraft.updated_at := midnight 2025 9 30;
     IPMTDraft.reports := {[ 5; 6 ]} |}.

Definition stale_drafts : IPMT.table := {| IPMT.rows := [stale_draft]; IPMT.next_pk := 2 |}.

(** Two times of call. *)
Definition first_of_october : datetime := midnight 2025 10 1.
Definition second_of_october : datetime := midnight 2025 10 2.

Definition summary (code : string) (texts : list string) : string :=
  "Summary for " +:+ code.

Definition cf1_row : views.Row :=
  {| views.row_indicator := Some "CF1"; views.row_war_ids := Some [11];
     views.row_description := None; views.row_accomplishment := None;
     views.row_remarks := None |}.

Definition post : views.Request :=
  {| views.method := "POST";
     views.body :=
       Some {| views.p_month := Some "2025-09"; views.p_unit := Some "engineering";
               views.p_personnel := Some ["Juan Dela Cruz"];
               views.p_rows := Some [cf1_row] |} |}.

End Sample.

(** ** models.py: the generated description *)

(** [self.project_name or 'N/A'] *)
Definition project_label (project_name : option string) : string :=
  match project_name with
  | Some n => str_or n "N/A"
  | None => "N/A"
  end.

(** [WorkAccomplishmentReport.generate_description] *)
Definition generate_description (self : WorkAccomplishmentReport.t) : string :=
  if truthy (WorkAccomplishmentReport.description self)
  then WorkAccomplishmentReport.description self
  else
    match WorkAccomplishmentReport.request self with
    | Some r =>
        "WAR generated from request " +:+ str (ServiceRequest.pk r) +:+ ": "
        +:+ ServiceRequest.description r
    | None =>
        "WAR for project " +:+ project_label (WorkAccomplishmentReport.project_name self)
    end.

(** ** The table of accomplishment reports *)
Module WarTable.
Import WorkAccomplishmentReport.

(** Every row has a primary key, the keys are distinct and below the
    sequence. *)
Definition wf (tbl : table) : Prop :=
  NoDup (List.map pk (rows tbl))
  /\ Forall (fun r => exists k, pk r = Some k /\ k < next_pk tbl) (rows tbl).

End WarTable.

(** ** views.py: the export and preview views *)
Module views_read.
Import utils.

(** A row of the preview: indicator code, description, remarks and the
    ids of the reports behind it. *)
Record PreviewRow := {
  pr_indicator : string;
  pr_description : string;
  pr_remarks : string;
  pr_war_ids : list (option Z)
}.

(** The context [preview_ipmt] hands to its template. *)
Record PreviewContext := {
  reports : list PreviewRow;
  month_filter : string;
  unit_filter : string;
  personnel_names : list string
}.

(** The answer of a view. *)
Inductive HttpResponse : Type :=
| Plain (content : string) (status : Z)
| Attachment (filename content_type : string) (wb : Workbook)
| Render (template : string) (context : PreviewContext).

(** The query string of the two IPMT views: [month], [unit] and the
    repeated [personnel]. *)
Record Query := {
  q_month : option string;
  q_unit : option string;
  q_personnel : list string
}.

(** [request.GET.get("unit", "all")] *)
Definition unit_filter_of (q : Query) : string :=
  match q_unit q with Some u => u | None => "all" end.

Definition spreadsheet_type : string :=
  "application/vnd.openxmlformats-officedocument.spreadsheetml.sheet".

Section Views.
Variable writer_accepts : list string -> string -> bool.

Definition generate_ipmt (db : Database) (q : Query) : result HttpResponse :=
  let month_filter := views.text (q_month q) in
  let unit_filter := unit_filter_of q in
  let personnel_names := q_personnel q in
  if negb (truthy month_filter)
  then Ok (Plain "Month is required in 'YYYY-MM' format." 400)
  else
    match generate_ipmt_excel writer_accepts db month_filter (Some unit_filter)
            (Some personnel_names) with
    | Ok wb =>
        let filename := "IPMT_" +:+ unit_filter +:+ "_" +:+ month_filter +:+ ".xlsx" in
        Ok (Attachment filename spreadsheet_type wb)
    | Raise (ValueError e) => Ok (Plain e 400)
    | Raise e => Raise e
    end.

End Views.

(** [" / ".join(l)] *)
Fixpoint join_slash (l : list string) : string :=
  match l with
  | [] => ""
  | [x] => x
  | x :: l' => x +:+ " / " +:+ join_slash l'
  end.

(** [WorkAccomplishmentReport.objects.filter(unit=unit, activity_name=...,
     date_started__year=year, date_started__month=month_num)]: the model
    has no field [activity_name], and a query set refuses a lookup on a
    name that is no field when the filter is built. *)
Definition filter_by_activity (db : Database) (unit : option Unit.t) (activity_name : string)
    (year month_num : Z) : result (list WorkAccomplishmentReport.t) :=
  Raise FieldError.

(** The reports of one indicator in [preview_ipmt].  The arguments of the
    filter are evaluated before the filter is called,
    [indicator.activity_name] among them. *)
Definition preview_wars (db : Database) (unit : option Unit.t) (year month_num : Z)
    (personnel_names : list string) (indicator : SuccessIndicator.t)
    : result (list WorkAccomplishmentReport.t) :=
  activity_name ← SuccessIndicator.activity_name indicator;
  wars ← filter_by_activity db unit activity_name year month_num;
  wars ←
    match personnel_names with
    | [] => Ok wars
    | _ =>
        first_names ← comprehension (fun p => item0 (split_ws p)) personnel_names;
        Ok (filter_first_name_in first_names wars)
    end;
  run_query year wars.

(** The body of the loop over indicators in [preview_ipmt]. *)
Definition preview_row (db : Database) (unit : option Unit.t) (year month_num : Z)
    (personnel_names : list string) (indicator : SuccessIndicator.t)
    : result PreviewRow :=
  wars ← preview_wars db unit year month_num personnel_names indicator;
  let description :=
    str_or
      (join_slash
         (List.filter truthy (List.map WorkAccomplishmentReport.description wars))) "" in
  let remarks := "" in
  Ok {| pr_indicator := SuccessIndicator.code indicator;
        pr_description := description;
        pr_remarks := remarks;
        pr_war_ids := List.map WorkAccomplishmentReport.pk wars |}.

(** The unit a preview is about: none for ["all"], else the first unit of
    that name, if any. *)
Definition preview_unit (db : Database) (unit_filter : string) : option Unit.t :=
  if String.eqb (lower unit_filter) "all" then None
  else qs_first Unit.pk
         (List.filter (fun u => iexact (Unit.name u) (Some unit_filter)) (units db)).

(** [SuccessIndicator.objects.filter(unit=unit) if unit
     else SuccessIndicator.objects.all()] *)
Definition preview_indicators (db : Database) (unit : option Unit.t)
    : list SuccessIndicator.t :=
  match unit with
  | Some u =>
      List.filter (fun i => Unit.pk (SuccessIndicator.unit i) =? Unit.pk u)
        (success_indicators db)
  | None => success_indicators db
  end.

Definition preview_ipmt (db : Database) (q : Query) : result HttpResponse :=
  let month_filter := views.text (q_month q) in
  let unit_filter := unit_filter_of q in
  let personnel_names := q_personnel q in
  if negb (truthy month_filter)
  then Ok (Plain "Month is required in 'YYYY-MM' format." 400)
  else
    match List.map int (split_on "-" month_filter) with
    | [Some year; Some month_num] =>
        let unit := preview_unit db unit_filter in
        let indicators := preview_indicators db unit in
        reports ← comprehension (preview_row db unit year month_num personnel_names)
                    indicators;
        Ok (Render "gso_office/ipmt/ipmt_preview.html"
              {| reports := reports; month_filter := month_filter;
                 unit_filter := unit_filter; personnel_names := personnel_names |})
    | _ => Ok (Plain "Invalid month format. Use YYYY-MM." 400)
    end.

End views_read.

(** ** The answer of [save_ipmt] as a function of the stored data and the
       request *)
Module Outcome.
Import views.

(** A row under a resolved person: a row without indicator code is a
    [KeyError], a code no indicator of the unit has is passed over, and a
    code that resolves ends in the [AttributeError] of
    [indicator.activity_name]. *)
Definition of_row (db : Database) (unit : Unit.t) (row : Row) : result Datatypes.unit :=
  match row_indicator row with
  | None => Raise KeyError
  | Some code =>
      match resolve_indicator db unit code with
      | None => Ok tt
      | Some _ => Raise AttributeError
      end
  end.

(** A listed person: a blank name is an [IndexError], a person nobody is
    stored for is passed over, the rows of a resolved person are gone
    through in order. *)
Definition of_person (db : Database) (unit : Unit.t) (rows : list Row) (person_name : string)
    : result Datatypes.unit :=
  match resolve_user db person_name with
  | Raise e => Raise e
  | Ok None => Ok tt
  | Ok (Some _) => mapM (of_row db unit) rows ;; Ok tt
  end.

Definition of_request (db : Database) (request : Request) : result Response :=
  if negb (String.eqb (method request) "POST")
  then Ok (JsonResponse "error" "POST required" 400)
  else
    match body request with
    | None => Ok (JsonResponse "error" "Invalid JSON" 400)
    | Some data =>
        let unit_name := text (p_unit data) in
        if negb (truthy (text (p_month data))) || negb (truthy unit_name)
           || bool_decide (given (p_personnel data) = [])
           || bool_decide (given (p_rows data) = [])
        then Ok (JsonResponse "error" "Missing required data" 400)
        else
          match qs_first Unit.pk
                  (List.filter (fun u => iexact (Unit.name u) (Some unit_name)) (units db)) with
          | None => Ok (JsonResponse "error" ("Unit '" +:+ unit_name +:+ "' not found") 404)
          | Some unit =>
              mapM (of_person db unit (given (p_rows data))) (given (p_personnel data)) ;;
              Ok (JsonResponse "status" "success" 200)
          end
    end.

End Outcome.

(** ** ai_service/tasks.py *)
Module tasks.
Import WorkAccomplishmentReport.

Section Tasks.
Variable db_accepts : list t -> t -> bool.

(** [generate_war_description(activity_name, unit, personnel_names)] of
    [apps.ai_service.utils], the text-generation service; it may raise. *)
Variable generate_war_description : string -> string -> list string -> result string.

Definition with_description (d : string) (w : t) : t :=
  Build_t (pk w) (request w) (unit w) (assigned_personnel w) (date_started w)
    (date_completed w) (project_name w) d (status w)
    (material_cost w) (labor_cost w) (total_cost w) (control_number w)
    (created_at w).

Definition generate_war_description_task (war_id : Z) (tbl : table)
    : table * result string :=
  match qs_get (List.filter (has_pk war_id) (rows tbl)) with
  | Raise e => (tbl, Raise e)
  | Ok None => (tbl, Ok ("WAR " +:+ str war_id +:+ " not found"))
  | Ok (Some war) =>
      let personnel_names := List.map User.display_name (assigned_personnel war) in
      match activity_name war with
      | Raise e => (tbl, Raise e)
      | Ok activity =>
          match generate_war_description activity (Unit.name (unit war))
                  personnel_names with
          | Raise e => (tbl, Raise e)
          | Ok description =>
              match save db_accepts None (with_description description war) tbl with
              | (tbl', Ok war') =>
                  (tbl', Ok ("Description generated for WAR "
                             +:+ match pk war' with Some k => str k | None => "None" end))
              | (tbl', Raise e) => (tbl', Raise e)
              end
          end
      end
  end.

End Tasks.
End tasks.

(** ** More sample data *)
Module Sample2.

(** A completed request nobody has reported on yet. *)
Definition leaking_pipe : ServiceRequest.t :=
  {| ServiceRequest.pk := 21;
     ServiceRequest.department := Some "Registrar";
     ServiceRequest.description := "Fix leaking pipe";
     ServiceRequest.unit := Some Sample.engineering;
     ServiceRequest.created_at :=
       {| dt_date := {| year := 2025; month := 9; day := 2 |}; dt_time := 0;
          dt_tz := Some "Asia/Manila" |};
     ServiceRequest.assigned_personnel := [Sample.juan];
     ServiceRequest.status := "Completed";
     ServiceRequest.rating := None;
     ServiceRequest.reports := [] |}.

Definition motorpool : Unit.t := {| Unit.pk := 2; Unit.name := "ENGINEERING" |}.

(** Two units whose names differ in case only. *)
Definition db_two_units : Database :=
  {| units := [Sample.engineering; motorpool]; users := [Sample.juan];
     activity_names := []; success_indicators := [Sample.cf1];
     wars := [Sample.stored_road_repair]; ipmt_drafts := [] |}.

End Sample2.

Module Sample3.


Definition other_summary (code : string) (texts : list string) : string :=
  "Another summary".



End Sample3.

(** * Properties *)

(** ** Decimal arithmetic on amounts of two places *)
Section Decimals.
Import Decimal.





End Decimals.

(** ** Accomplishment reports: the derived total *)
Section WarTotal.
Import WorkAccomplishmentReport WarStore.





(** What [prepare] hands on: the instance with the written costs rounded. *)
Lemma prepare_ok written self row :
  prepare written self = Ok row ->
  exists m l c,
    row = with_costs m l c self
    /\ (if written "material_cost" then prepare_cost (material_cost self) = Ok m
        else m = material_cost self)
    /\ (if written "labor_cost" then prepare_cost (labor_cost self) = Ok l
        else l = labor_cost self)
    /\ (if written "total_cost" then prepare_cost (total_cost self) = Ok c
        else c = total_cost self).
Proof.
  unfold prepare. intros H.
  destruct (written "material_cost") eqn:Hm, (written "labor_cost") eqn:Hl,
    (written "total_cost") eqn:Hc;
    repeat match type of H with
    | context [prepare_cost ?x] =>
        let E := fresh "E" in destruct (prepare_cost x) eqn:E; cbn in H; [|discriminate]
    end;
    cbn in H; injection H as <-; do 3 eexists; repeat split; eauto.
Qed.

Lemma prepare_pk written self row : prepare written self = Ok row -> pk row = pk self.
Proof. intros H. apply prepare_ok in H as (m & l & c & -> & _). reflexivity. Qed.













End WarTotal.

(** ** Draft aggregation: [save_ipmt] *)
Section Upsert.
Import views.

(** A loop whose body writes nothing writes nothing, and ends with the
    first exception of its body. *)
Lemma for_each_stateless {A : Type} (body : A -> M unit) (out : A -> result unit) l :
  (forall x tbl, body x tbl = (tbl, out x)) ->
  forall tbl, for_each l body tbl = (tbl, mapM out l ;; Ok tt).
Proof.
  intros Hbody. induction l as [|x l IH]; intros tbl; [reflexivity|].
  cbn [for_each]. unfold bind. rewrite Hbody.
  destruct (out x) as [[]|e] eqn:Hx; cbn; rewrite Hx; cbn; [|reflexivity].
  rewrite IH. destruct (mapM out l) as [ys|e]; reflexivity.
Qed.

(** The body of the loop over rows never gets to [update_or_create]. *)
Lemma save_row_outcome summary now db unit month user row tbl :
  save_row summary now db unit month user row tbl = (tbl, Outcome.of_row db unit row).
Proof.
  unfold save_row, Outcome.of_row.
  destruct (row_indicator row) as [code|]; [|reflexivity].
  destruct (resolve_indicator db unit code) as [indicator|]; reflexivity.
Qed.

Lemma save_person_outcome summary now db unit month rows person tbl :
  save_person summary now db unit month rows person tbl
  = (tbl, Outcome.of_person db unit rows person).
Proof.
  unfold save_person, Outcome.of_person.
  destruct (resolve_user db person) as [[user|]|e]; try reflexivity.
  apply for_each_stateless. intros row t. apply save_row_outcome.
Qed.

(** [save_ipmt] writes no draft, and its answer does not depend on the
    drafts, on the summarisation service or on the time. *)
Lemma save_ipmt_outcome summary now db request tbl :
  save_ipmt summary now db request tbl = (tbl, Outcome.of_request db request).
Proof.
  unfold save_ipmt, Outcome.of_request.
  destruct (negb (String.eqb (method request) "POST")); [reflexivity|].
  destruct (body request) as [data|]; [|reflexivity].
  destruct (_ || _ || _ || _); [reflexivity|].
  destruct (qs_first Unit.pk _) as [unit|]; [|reflexivity].
  unfold bind.
  rewrite (for_each_stateless _ (Outcome.of_person db unit (given (p_rows data))))
    by (intros person t; apply save_person_outcome).
  destruct (mapM _ _) as [ys|e]; reflexivity.
Qed.


End Upsert.

(** ** Query-set facts *)
Section QuerySets.

Lemma qs_first_in {A : Type} (pk : A -> Z) (l : list A) x :
  qs_first pk l = Some x -> In x l.
Proof.
  revert x. induction l as [|y l IH]; intros x; cbn; [discriminate|].
  destruct (qs_first pk l) as [z|].
  - destruct (pk z <? pk y); intros [= <-]; auto.
  - intros [= <-]. auto.
Qed.

Lemma qs_first_none {A : Type} (pk : A -> Z) (l : list A) :
  qs_first pk l = None <-> l = [].
Proof.
  destruct l as [|y l]; cbn; [tauto|].
  split; [|discriminate].
  destruct (qs_first pk l) as [z|]; [destruct (pk z <? pk y)|]; discriminate.
Qed.

Lemma filter_none {A : Type} (p : A -> bool) (l : list A) :
  (forall x, In x l -> p x = false) -> List.filter p l = [].
Proof.
  induction l as [|x l IH]; intros H; [reflexivity|].
  cbn. rewrite (H x) by now left. apply IH. intros y Hy. apply H. now right.
Qed.

Lemma find_first {A : Type} (p : A -> bool) (l : list A) :
  match List.find p l with
  | Some x =>
      exists before after,
        l = before ++ x :: after /\ Forall (fun y => p y = false) before /\ p x = true
  | None => Forall (fun y => p y = false) l
  end.
Proof.
  induction l as [|y l IH]; cbn; [constructor|].
  destruct (p y) eqn:Hy.
  - exists [], l. repeat split; [constructor|exact Hy].
  - destruct (List.find p l) as [x|].
    + destruct IH as (before & after & -> & Hb & Hx).
      exists (y :: before), after. repeat split; [constructor; assumption|exact Hx].
    + constructor; assumption.
Qed.

End QuerySets.

(** ** Texts *)
Section Texts.

Lemma lower_char_idem c : lower_char (lower_char c) = lower_char c.
Proof. destruct c as [[] [] [] [] [] [] [] []]; reflexivity. Qed.

Lemma is_space_lower_char c : is_space (lower_char c) = is_space c.
Proof. destruct c as [[] [] [] [] [] [] [] []]; reflexivity. Qed.

Lemma lower_idem s : lower (lower s) = lower s.
Proof. induction s as [|c s IH]; cbn; [reflexivity|]. now rewrite lower_char_idem, IH. Qed.

Lemma lower_app a b : lower (a +:+ b) = lower a +:+ lower b.
Proof.
  induction a as [|c a IH]; [reflexivity|].
  change (String (lower_char c) (lower (a +:+ b))
          = String (lower_char c) (lower a +:+ lower b)).
  now rewrite IH.
Qed.

Lemma truthy_lower s : truthy (lower s) = truthy s.
Proof. destruct s; reflexivity. Qed.

Lemma truthy_false s : truthy s = false <-> s = "".
Proof. destruct s; cbn; split; congruence. Qed.

Lemma append_cons c a b : String c a +:+ b = String c (a +:+ b).
Proof. reflexivity. Qed.

Lemma prefix_app n h : String.prefix n h = true <-> exists z, h = n +:+ z.
Proof.
  revert h. induction n as [|c n IH]; intros h; cbn.
  - destruct h; split; eauto.
  - destruct h as [|d h]; cbn.
    + split; [discriminate|]. intros [z Hz]. rewrite append_cons in Hz. discriminate.
    + destruct (ascii_dec c d) as [->|Hne].
      * rewrite IH. split; intros [z Hz]; exists z; rewrite append_cons in *; congruence.
      * split; [discriminate|]. intros [z Hz]. rewrite append_cons in Hz. congruence.
Qed.

(** [needle in hay] holds exactly when [hay] is [needle] between two
    texts. *)
Lemma contains_app n h : contains n h = true <-> exists x z, h = x +:+ n +:+ z.
Proof.
  induction h as [|d h IH].
  - cbn [contains]. rewrite orb_false_r, prefix_app. split.
    + intros [z Hz]. exists "", z. exact Hz.
    + intros ([|c x] & z & Hz); [exists z; exact Hz|].
      rewrite append_cons in Hz. discriminate.
  - cbn [contains]. rewrite orb_true_iff, prefix_app, IH. split.
    + intros [[z Hz]|(x & z & Hz)].
      * exists "", z. exact Hz.
      * exists (String d x), z. rewrite append_cons. now rewrite Hz.
    + intros ([|c x] & z & Hz).
      * left. exists z. exact Hz.
      * right. rewrite append_cons in Hz. injection Hz as _ Hz. eauto.
Qed.

Lemma contains_empty h : contains "" h = true.
Proof. destruct h; reflexivity. Qed.

(** A text that starts with no white space. *)
Lemma lstrip_no_lead s :
  match lstrip s with String c _ => is_space c = false | "" => True end.
Proof.
  induction s as [|c s IH]; cbn; [exact I|].
  destruct (is_space c) eqn:Hc; [exact IH|exact Hc].
Qed.

Lemma rstrip_idem s : rstrip (rstrip s) = rstrip s.
Proof.
  assert (Hstep : forall c t,
    rstrip (String c t)
    = match rstrip t with
      | "" => if is_space c then "" else String c ""
      | r => String c r
      end) by reflexivity.
  induction s as [|c s IH]; [reflexivity|]. rewrite (Hstep c s).
  destruct (rstrip s) as [|d r] eqn:Hr.
  - destruct (is_space c) eqn:Hc; [reflexivity|]. rewrite Hstep. cbn [rstrip]. now rewrite Hc.
  - rewrite Hstep, IH. reflexivity.
Qed.

Lemma rstrip_head c s d r : rstrip (String c s) = String d r -> d = c.
Proof.
  cbn [rstrip]. destruct (rstrip s); [destruct (is_space c)|]; congruence.
Qed.

Lemma lstrip_id s :
  match s with String c _ => is_space c = false | "" => True end -> lstrip s = s.
Proof. destruct s as [|c s]; cbn; [reflexivity|]. now intros ->. Qed.

Lemma strip_idem s : strip (strip s) = strip s.
Proof.
  unfold strip. pose proof (lstrip_no_lead s) as Hlead.
  destruct (lstrip s) as [|c t] eqn:Hl; [reflexivity|].
  rewrite lstrip_id; [apply rstrip_idem|].
  destruct (rstrip (String c t)) as [|d r] eqn:Hr; [exact I|].
  apply rstrip_head in Hr. now subst d.
Qed.

Lemma lstrip_lower s : lstrip (lower s) = lower (lstrip s).
Proof.
  induction s as [|c s IH]; [reflexivity|]. cbn. rewrite is_space_lower_char.
  destruct (is_space c); [exact IH|reflexivity].
Qed.

Lemma rstrip_lower s : rstrip (lower s) = lower (rstrip s).
Proof.
  induction s as [|c s IH]; [reflexivity|]. cbn [lower rstrip]. rewrite IH.
  destruct (rstrip s); cbn [lower]; [|reflexivity].
  rewrite is_space_lower_char. destruct (is_space c); reflexivity.
Qed.

Lemma strip_lower s : strip (lower s) = lower (strip s).
Proof. unfold strip. now rewrite lstrip_lower, rstrip_lower. Qed.

End Texts.


(** ** The record normaliser *)
Section Normalizer.
Import utils.

Lemma personnel_list_nonempty assigned : personnel_list assigned <> [].
Proof. destruct assigned; discriminate. Qed.

(** C10.  [normalize_report] is partial over the kinds of its input: an
    object that is neither a service request nor an accomplishment report
    gets no row ([None], and no exception); each of the two record kinds
    always gets a row, whose personnel list is not empty and is
    ["Unassigned"] when nobody is assigned. *)
Theorem normalize_report_partial current_tz :
  (forall class_name, normalize_report current_tz (AnotherObject class_name) = Ok None)
  /\ (forall r, exists row,
        normalize_report current_tz (AServiceRequest r) = Ok (Some row)
        /\ personnel row <> []
        /\ (ServiceRequest.assigned_personnel r = [] -> personnel row = ["Unassigned"]))
  /\ (forall w, exists row,
        normalize_report current_tz (AWorkAccomplishmentReport w) = Ok (Some row)
        /\ personnel row <> []
        /\ (WorkAccomplishmentReport.assigned_personnel w = [] ->
            personnel row = ["Unassigned"])).
Proof.
  split; [reflexivity|]. split.
  - intros r. eexists. split; [reflexivity|]. cbn [personnel]. split.
    + apply personnel_list_nonempty.
    + intros ->. reflexivity.
  - intros w. unfold normalize_report.
    assert (Hdate : exists d,
      match WorkAccomplishmentReport.date_started w with
      | ADate d => make_aware current_tz (combine_midnight d)
      | ADateTime t => if is_naive t then make_aware current_tz t else Ok t
      end = Ok d).
    { destruct (WorkAccomplishmentReport.date_started w) as [d|t].
      - eexists. reflexivity.
      - unfold make_aware. destruct (is_naive t); eexists; reflexivity. }
    destruct Hdate as [d ->]. eexists. split; [reflexivity|]. cbn [personnel]. split.
    + apply personnel_list_nonempty.
    + intros ->. reflexivity.
Qed.

End Normalizer.

(** ** The activity classifier *)
Section Classifier.
Import utils.

Lemma miscellaneous_named db a :
  miscellaneous db = Some a ->
  In a (activity_names db) /\ ActivityName.name a = "Miscellaneous".
Proof.
  unfold miscellaneous. intros H. apply qs_first_in, List.filter_In in H as [Hin Hn].
  split; [exact Hin|]. now apply String.eqb_eq.
Qed.

Lemma miscellaneous_absent db :
  miscellaneous db = None <->
  Forall (fun a => ActivityName.name a <> "Miscellaneous") (activity_names db).
Proof.
  unfold miscellaneous. rewrite qs_first_none, List.Forall_forall. split.
  - intros Hf a Hin Hn.
    assert (In a []) as []. rewrite <- Hf. apply List.filter_In. split; [exact Hin|].
    now apply String.eqb_eq.
  - intros H. apply filter_none. intros a Hin. apply String.eqb_neq. now apply H.
Qed.

(** The classifier answers with the fallback exactly on the texts of C4. *)
Lemma map_activity_name_no_hit db description :
  description = "" \/
  Forall (fun a => keyword_hit (lower description) a = false) (activity_names db) ->
  map_activity_name db description = miscellaneous db.
Proof.
  unfold map_activity_name. intros [->|Hnone]; [reflexivity|].
  destruct (negb (truthy description)); [reflexivity|].
  pose proof (find_first (keyword_hit (lower description)) (activity_names db)) as Hfind.
  destruct (List.find _ _) as [a|]; [|reflexivity].
  destruct Hfind as (before & after & Heq & _ & Hhit).
  rewrite List.Forall_forall in Hnone. rewrite Hnone in Hhit; [discriminate|].
  rewrite Heq. apply List.in_or_app. right. now left.
Qed.

(** C4, as the code has it.  On an empty text, or a text no keyword of
    any activity occurs in, [map_activity_name] answers with the activity
    named "Miscellaneous" when the catalogue has one, and with no activity
    ([None], without an exception) when it has none. *)
Theorem map_activity_name_fallback db description :
  description = "" \/
  Forall (fun a => keyword_hit (lower description) a = false) (activity_names db) ->
  ((exists a, In a (activity_names db) /\ ActivityName.name a = "Miscellaneous") ->
   exists a, map_activity_name db description = Some a
             /\ In a (activity_names db) /\ ActivityName.name a = "Miscellaneous")
  /\ (Forall (fun a => ActivityName.name a <> "Miscellaneous") (activity_names db) ->
      map_activity_name db description = None).
Proof.
  intros H. rewrite (map_activity_name_no_hit db description H). split.
  - intros (a & Hin & Hn).
    destruct (miscellaneous db) as [m|] eqn:Hm.
    + exists m. split; [reflexivity|]. now apply miscellaneous_named.
    + apply miscellaneous_absent in Hm. rewrite List.Forall_forall in Hm.
      now destruct (Hm a Hin).
  - apply miscellaneous_absent.
Qed.

End Classifier.

(** ** The indicator matcher *)
Section Matcher.
Import utils.

Lemma str_or_empty s : str_or s "" = s.
Proof. destruct s; reflexivity. Qed.

(** The test of the matcher is a substring test on the lower-cased texts. *)
Lemma indicator_matches_occurs indicator war :
  indicator_matches indicator war = true <->
  exists before after,
    lower (WorkAccomplishmentReport.description war)
    = before +:+ lower (SuccessIndicator.description indicator) +:+ after.
Proof. unfold indicator_matches. rewrite str_or_empty. apply contains_app. Qed.

Lemma indicator_matches_none indicator wars :
  Forall (fun w => indicator_matches indicator w = false) wars ->
  Forall
    (fun w =>
       ~ exists before after,
           lower (WorkAccomplishmentReport.description w)
           = before +:+ lower (SuccessIndicator.description indicator) +:+ after)
    wars.
Proof.
  intros H. eapply List.Forall_impl; [|exact H]. intros w Hw Hex.
  apply indicator_matches_occurs in Hex. congruence.
Qed.

(** The row of an indicator carries the first report of the scan whose
    description holds the indicator's, or none. *)
Lemma report_row_first db unit yr mo scan indicator :
  let row := report_row db unit yr mo scan indicator in
  utils.indicator row = SuccessIndicator.code indicator
  /\ ((war_id row = None /\ description row = ""
       /\ Forall
            (fun w =>
               ~ exists before after,
                   lower (WorkAccomplishmentReport.description w)
                   = before +:+ lower (SuccessIndicator.description indicator) +:+ after)
            scan)
      \/ exists earlier w later,
           scan = earlier ++ w :: later
           /\ Forall
                (fun w' =>
                   ~ exists before after,
                       lower (WorkAccomplishmentReport.description w')
                       = before +:+ lower (SuccessIndicator.description indicator) +:+ after)
                earlier
           /\ (exists before after,
                 lower (WorkAccomplishmentReport.description w)
                 = before +:+ lower (SuccessIndicator.description indicator) +:+ after)
           /\ war_id row = WorkAccomplishmentReport.pk w
           /\ description row = WorkAccomplishmentReport.description w).
Proof.
  unfold report_row. cbn [utils.indicator war_id description].
  split; [reflexivity|].
  pose proof (find_first (indicator_matches indicator) scan) as Hfind.
  destruct (List.find (indicator_matches indicator) scan) as [w|].
  - right. destruct Hfind as (earlier & later & Heq & Hb & Hw).
    exists earlier, w, later. split; [exact Heq|]. split; [now apply indicator_matches_none|].
    split; [now apply indicator_matches_occurs|]. split; reflexivity.
  - left. split; [reflexivity|]. split; [reflexivity|]. now apply indicator_matches_none.
Qed.

(** The loop over the indicators, once it has run the query of the
    candidates, makes one row for each indicator. *)
Lemma indicator_rows db unit yr mo scan indicators rows :
  comprehension
    (fun indicator =>
       wars ← run_query yr scan; Ok (report_row db unit yr mo wars indicator))
    indicators = Ok rows ->
  rows = List.map (report_row db unit yr mo scan) indicators.
Proof.
  unfold comprehension, run_query. revert rows.
  induction indicators as [|i l IH]; intros rows; cbn; [now intros [= <-]|].
  destruct (year_lookup yr) as [[]|e]; cbn; [|discriminate].
  destruct (mapM _ l) as [rows'|e]; cbn; [|discriminate].
  intros [= <-]. f_equal. now apply IH.
Qed.

Lemma indicator_rows_return db unit yr mo scan indicators :
  1 <= yr <= 9999 ->
  comprehension
    (fun indicator =>
       wars ← run_query yr scan; Ok (report_row db unit yr mo wars indicator))
    indicators = Ok (List.map (report_row db unit yr mo scan) indicators).
Proof.
  intros Hyr.
  assert (Hy : year_lookup yr = Ok tt).
  { unfold year_lookup.
    destruct (Z.leb_spec 1 yr); [|lia]. destruct (Z.leb_spec yr 9999); [|lia].
    reflexivity. }
  unfold comprehension, run_query. rewrite Hy. cbn [mbind result_bind].
  induction indicators as [|i l IH]; cbn; [reflexivity|]. now rewrite IH.
Qed.

Lemma names_all_in names : names_all names = true <-> In "all" (List.map lower names).
Proof.
  unfold names_all. rewrite List.existsb_exists. split.
  - intros (x & Hx & Heq). apply String.eqb_eq in Heq. now subst x.
  - intros Hin. exists "all". split; [exact Hin|reflexivity].
Qed.

Lemma comprehension_forall2 {A B : Type} (f : A -> result B) (l : list A) : forall ys,
  comprehension f l = Ok ys -> Forall2 (fun x y => f x = Ok y) l ys.
Proof.
  unfold comprehension. induction l as [|x l IH]; intros ys; cbn.
  - intros [= <-]. constructor.
  - destruct (f x) as [y|e] eqn:Hx; cbn; [|discriminate].
    destruct (mapM f l) as [ys'|e]; cbn; [|discriminate].
    intros [= <-]. constructor; [exact Hx|]. now apply IH.
Qed.

(** The scan of a call: the reports of the unit started in the month, in
    storage order; under a personnel filter, each of them once for every
    assigned person whose first name is the first word of a requested
    name. *)
Lemma candidates_scan db unit yr mo personnel_names scan :
  candidates db unit yr mo personnel_names = Ok scan ->
  let base :=
    List.filter
      (fun w =>
         (Unit.pk (WorkAccomplishmentReport.unit w) =? Unit.pk unit)
         && ((year (date_of (WorkAccomplishmentReport.date_started w)) =? yr)
             && (month (date_of (WorkAccomplishmentReport.date_started w)) =? mo)))
      (wars db) in
  (given personnel_names = [] \/ In "all" (List.map lower (given personnel_names)) ->
   scan = base)
  /\ (given personnel_names <> [] ->
      ~ In "all" (List.map lower (given personnel_names)) ->
      exists firsts,
        Forall2 (fun name first => exists rest, split_ws name = first :: rest)
          (given personnel_names) firsts
        /\ scan
           = flat_map
               (fun w =>
                  List.map (fun _ => w)
                    (List.filter
                       (fun p => existsb (String.eqb (User.first_name p)) firsts)
                       (WorkAccomplishmentReport.assigned_personnel w)))
               base).
Proof.
  intros Hc base. unfold candidates in Hc.
  change (List.filter _ (wars db)) with base in Hc.
  destruct (given personnel_names) as [|p l] eqn:Hnames.
  - injection Hc as <-. split; [reflexivity|]. intros Hne. now destruct Hne.
  - destruct (names_all (p :: l)) eqn:Hall.
    + injection Hc as <-. split; [reflexivity|]. intros _ Hnot.
      apply names_all_in in Hall. contradiction.
    + destruct (comprehension (fun p => item0 (split_ws p)) (p :: l)) as [firsts|e] eqn:Hf;
        cbn [mbind result_bind] in Hc; [|discriminate].
      injection Hc as <-. split.
      * intros [Hnil|Hin]; [discriminate|]. apply names_all_in in Hin. congruence.
      * intros _ _. exists firsts. split; [|reflexivity].
        apply comprehension_forall2 in Hf. eapply List.Forall2_impl; [|exact Hf].
        intros name first Hitem. cbn beta in Hitem.
        destruct (split_ws name) as [|tok rest]; [discriminate|].
        injection Hitem as <-. eauto.
Qed.

(** C3.  When [collect_ipmt_reports] returns, either no unit has the name
    and there is no row, or exactly one unit has it and the rows are, in
    order, one for each active indicator of that unit, each with the code of
    its indicator and at most one report id.  The candidate reports are
    scanned in one order for every indicator: the reports of the unit
    started in the year and month, in storage order, and under a personnel
    filter each of them once for every assigned person whose first name is
    the first word of a requested name.  The id of a row is the id of the
    first report of the scan whose lower-cased description contains the
    lower-cased description of the indicator as a substring, and the row
    carries the description of that report; when no report of the scan
    contains it, the row has no id and an empty description. *)
Theorem collect_ipmt_reports_first_match db yr mo unit_name personnel_names rows :
  collect_ipmt_reports db yr mo unit_name personnel_names = Ok rows ->
  (Forall (fun u => iexact (Unit.name u) unit_name = false) (units db) /\ rows = [])
  \/ exists unit scan,
       List.filter (fun u => iexact (Unit.name u) unit_name) (units db) = [unit]
       /\ (let base :=
             List.filter
               (fun w =>
                  (Unit.pk (WorkAccomplishmentReport.unit w) =? Unit.pk unit)
                  && ((year (date_of (WorkAccomplishmentReport.date_started w)) =? yr)
                      && (month (date_of (WorkAccomplishmentReport.date_started w)) =? mo)))
               (wars db) in
           (given personnel_names = [] \/ In "all" (List.map lower (given personnel_names)) ->
            scan = base)
           /\ (given personnel_names <> [] ->
               ~ In "all" (List.map lower (given personnel_names)) ->
               exists firsts,
                 Forall2 (fun name first => exists rest, split_ws name = first :: rest)
                   (given personnel_names) firsts
                 /\ scan
                    = flat_map
                        (fun w =>
                           List.map (fun _ => w)
                             (List.filter
                                (fun p => existsb (String.eqb (User.first_name p)) firsts)
                                (WorkAccomplishmentReport.assigned_personnel w)))
                        base))
       /\ Forall2
            (fun indicator row =>
               utils.indicator row = SuccessIndicator.code indicator
               /\ ((war_id row = None /\ description row = ""
                    /\ Forall
                         (fun w =>
                            ~ exists before after,
                                lower (WorkAccomplishmentReport.description w)
                                = before +:+ lower (SuccessIndicator.description indicator)
                                  +:+ after)
                         scan)
                   \/ exists earlier w later,
                        scan = earlier ++ w :: later
                        /\ Forall
                             (fun w' =>
                                ~ exists before after,
                                    lower (WorkAccomplishmentReport.description w')
                                    = before
                                      +:+ lower (SuccessIndicator.description indicator)
                                      +:+ after)
                             earlier
                        /\ (exists before after,
                              lower (WorkAccomplishmentReport.description w)
                              = before +:+ lower (SuccessIndicator.description indicator)
                                +:+ after)
                        /\ war_id row = WorkAccomplishmentReport.pk w
                        /\ description row = WorkAccomplishmentReport.description w))
            (List.filter
               (fun i => (Unit.pk (SuccessIndicator.unit i) =? Unit.pk unit)
                         && SuccessIndicator.is_active i)
               (success_indicators db))
            rows.
Proof.
  unfold collect_ipmt_reports.
  destruct (List.filter _ (units db)) as [|unit [|? ?]] eqn:Hunits.
  - intros [= <-]. left. split; [|reflexivity].
    apply List.Forall_forall. intros u Hu.
    destruct (iexact (Unit.name u) unit_name) eqn:Hname; [|reflexivity].
    assert (Hin : In u (List.filter (fun u => iexact (Unit.name u) unit_name) (units db)))
      by (apply List.filter_In; auto).
    rewrite Hunits in Hin. destruct Hin.
  - cbn [qs_get mbind result_bind].
    destruct (candidates db unit yr mo personnel_names) as [scan|e] eqn:Hc;
      cbn [mbind result_bind]; [|discriminate].
    intros Hrows. apply indicator_rows in Hrows. subst rows.
    right. exists unit, scan. split; [reflexivity|].
    split; [exact (candidates_scan db unit yr mo personnel_names scan Hc)|].
    unfold active_indicators.
    induction (List.filter _ (success_indicators db)) as [|i l IH]; cbn [List.map];
      constructor; [apply report_row_first|exact IH].
  - discriminate.
Qed.

Lemma comprehension_returns {A B : Type} (f : A -> result B) (l : list A) :
  Forall (fun x => exists y, f x = Ok y) l -> exists ys, comprehension f l = Ok ys.
Proof.
  unfold comprehension. induction 1 as [|x l [y Hy] _ [ys IH]]; cbn.
  - eexists; reflexivity.
  - rewrite Hy. cbn. rewrite IH. cbn. eexists; reflexivity.
Qed.

(** X29.  The matcher returns, with one row for each active indicator of
    the unit, whenever at most one unit has the name, every requested name
    has a first word and the year is a year of the calendar, 1 to 9999. *)
Lemma collect_ipmt_reports_returns db yr mo unit_name personnel_names :
  (length (List.filter (fun u => iexact (Unit.name u) unit_name) (units db)) <= 1)%nat ->
  Forall (fun p => split_ws p <> []) (given personnel_names) ->
  1 <= yr <= 9999 ->
  exists rows,
    collect_ipmt_reports db yr mo unit_name personnel_names = Ok rows
    /\ forall unit,
         List.filter (fun u => iexact (Unit.name u) unit_name) (units db) = [unit] ->
         List.map utils.indicator rows
         = List.map SuccessIndicator.code (active_indicators db unit).
Proof.
  intros Hone Hnames Hyr. unfold collect_ipmt_reports.
  destruct (List.filter _ (units db)) as [|unit [|? ?]]; cbn in Hone |- *; [| |lia].
  - eexists. split; [reflexivity|]. discriminate.
  - assert (Hc : exists wars, candidates db unit yr mo personnel_names = Ok wars).
    { unfold candidates. destruct (given personnel_names) as [|p l]; [eexists; reflexivity|].
      destruct (names_all (p :: l)); [eexists; reflexivity|].
      destruct (comprehension_returns (fun p => item0 (split_ws p)) (p :: l)) as [ys Hys].
      - eapply List.Forall_impl; [|exact Hnames]. intros q Hq.
        cbn beta in Hq. destruct (split_ws q) as [|tok ?]; [now destruct Hq|].
        eexists; reflexivity.
      - rewrite Hys. cbn. eexists; reflexivity. }
    destruct Hc as [wars ->]. cbn [mbind result_bind].
    rewrite (indicator_rows_return db unit yr mo wars _ Hyr).
    eexists. split; [reflexivity|]. intros u [= <-].
    rewrite List.map_map. reflexivity.
Qed.

(** C6.  A unit name that no unit has, compared without case, gives the
    empty list and no exception. *)
Theorem collect_ipmt_reports_unknown_unit db year month_num unit_name personnel_names :
  (forall u, In u (units db) -> iexact (Unit.name u) unit_name = false) ->
  collect_ipmt_reports db year month_num unit_name personnel_names = Ok [].
Proof.
  intros Hnone. unfold collect_ipmt_reports.
  rewrite (filter_none _ (units db) Hnone). reflexivity.
Qed.

End Matcher.

(** ** The export builder *)
Section ExportBuilder.
Import utils.
Variable writer_accepts : list string -> string -> bool.

(** The sheet of a person whose matcher result is empty holds the
    placeholder row. *)
Lemma person_sheet_placeholder db year month_num unit_name titles person sheet :
  person_sheet writer_accepts db year month_num unit_name titles person = Ok sheet ->
  title sheet = sheet_title person
  /\ (collect_ipmt_reports db year month_num unit_name (Some [person]) = Ok [] ->
      header sheet = placeholder_header /\ data sheet = placeholder_rows).
Proof.
  unfold person_sheet.
  destruct (collect_ipmt_reports db year month_num unit_name (Some [person]))
    as [reports|e]; cbn [mbind result_bind]; [|discriminate].
  destruct (negb (writer_accepts titles (sheet_title person))); [discriminate|].
  destruct (month_name month_num) as [label|e]; cbn [mbind result_bind]; [|discriminate].
  intros [= <-]. cbn [title header data]. split; [reflexivity|].
  intros [= ->]. split; reflexivity.
Qed.

Lemma write_sheets_each db year month_num unit_name persons : forall written out,
  write_sheets writer_accepts db year month_num unit_name persons written = Ok out ->
  exists sheets,
    out = written ++ sheets
    /\ Forall2
         (fun person sheet =>
            exists titles,
              person_sheet writer_accepts db year month_num unit_name titles person
              = Ok sheet)
         persons sheets.
Proof.
  induction persons as [|person persons IH]; intros written out; cbn [write_sheets].
  - intros [= <-]. exists []. split; [now rewrite List.app_nil_r|constructor].
  - destruct (person_sheet writer_accepts db year month_num unit_name
                (List.map title written) person) as [sheet|e] eqn:Hsheet;
      cbn [mbind result_bind]; [|discriminate].
    intros Hrest. apply IH in Hrest as (sheets & -> & Hall).
    exists (sheet :: sheets). split; [now rewrite <- List.app_assoc|].
    constructor; [eexists; exact Hsheet|exact Hall].
Qed.

(** The persons the export writes sheets for, once the query for everybody
    has run. *)
Lemma export_persons db year month_num unit_name personnel_names persons :
  (if nobody_named personnel_names
   then year_lookup year ;; Ok (everybody db year month_num unit_name)
   else Ok (given personnel_names)) = Ok persons ->
  persons = sheet_persons db year month_num unit_name personnel_names.
Proof.
  unfold nobody_named, sheet_persons. destruct (given personnel_names) as [|p l].
  - destruct (year_lookup year) as [[]|e]; cbn; [|discriminate]. now intros [= <-].
  - destruct (names_all (p :: l)); [|now intros [= <-]].
    destruct (year_lookup year) as [[]|e]; cbn; [|discriminate]. now intros [= <-].
Qed.

(** What the month filter check lets through: exactly the texts made of two
    integer literals around one dash, whatever their values. *)
Lemma parse_month_filter_accepts month_filter year month_num :
  parse_month_filter month_filter = Ok (year, month_num) <->
  exists a b,
    split_on "-" month_filter = [a; b] /\ int a = Some year /\ int b = Some month_num.
Proof.
  unfold parse_month_filter. split.
  - destruct (split_on "-" month_filter) as [|a [|b [|c l]]]; cbn [List.map];
      try discriminate.
    + destruct (int a); discriminate.
    + destruct (int a) as [y|] eqn:Ha, (int b) as [m|] eqn:Hb; try discriminate.
      intros [= <- <-]. exists a, b. auto.
    + destruct (int a), (int b); discriminate.
  - intros (a & b & -> & Ha & Hb). cbn [List.map]. now rewrite Ha, Hb.
Qed.

(** A month outside the calendar is an [IndexError] once a sheet is
    written, not a format error. *)
Lemma person_sheet_month_out_of_range db year month_num unit_name titles person :
  12 < month_num ->
  forall sheet,
    person_sheet writer_accepts db year month_num unit_name titles person <> Ok sheet.
Proof.
  intros Hm sheet. unfold person_sheet.
  destruct (collect_ipmt_reports db year month_num unit_name (Some [person]))
    as [reports|e]; cbn [mbind result_bind]; [|discriminate].
  destruct (negb (writer_accepts titles (sheet_title person))); [discriminate|].
  unfold month_name.
  destruct (Z.ltb_spec month_num 0); [lia|].
  destruct (Z.ltb_spec month_num 13); [lia|].
  rewrite andb_false_r. cbn [mbind result_bind]. discriminate.
Qed.

(** C8.  A workbook that [generate_ipmt_excel] returns has one sheet for
    each person, in order; the sheet of a person for whom the matcher
    returns no row has the three columns and exactly the one row
    "N/A", "No reports", "". *)
Theorem generate_ipmt_excel_placeholder db month_filter unit_name personnel_names wb :
  generate_ipmt_excel writer_accepts db month_filter unit_name personnel_names = Ok wb ->
  exists year month_num sheets,
    parse_month_filter month_filter = Ok (year, month_num)
    /\ wb = match sheets with [] => [default_sheet] | _ => sheets end
    /\ Forall2
         (fun person sheet =>
            title sheet = sheet_title person
            /\ (collect_ipmt_reports db year month_num unit_name (Some [person]) = Ok [] ->
                header sheet = placeholder_header /\ data sheet = placeholder_rows))
         (sheet_persons db year month_num unit_name personnel_names) sheets.
Proof.
  unfold generate_ipmt_excel.
  destruct (parse_month_filter month_filter) as [[year month_num]|e];
    cbn [mbind result_bind]; [|discriminate].
  destruct (if nobody_named _ then _ else _) as [persons|e] eqn:Hp;
    cbn [mbind result_bind]; [|discriminate].
  apply export_persons in Hp. subst persons.
  destruct (write_sheets _ _ _ _ _ _ _) as [sheets|e] eqn:Hw;
    cbn [mbind result_bind]; [|discriminate].
  intros [= <-]. exists year, month_num, sheets.
  split; [reflexivity|]. split; [reflexivity|].
  apply write_sheets_each in Hw as (sheets' & Heq & Hall). cbn [app] in Heq. subst sheets'.
  eapply List.Forall2_impl; [|exact Hall].
  intros person sheet [titles Hs]. eapply person_sheet_placeholder, Hs.
Qed.

Lemma month_name_in_range month_num :
  -13 <= month_num <= 12 -> exists label, month_name month_num = Ok label.
Proof.
  intros Hm. unfold month_name.
  set (j := if month_num <? 0 then month_num + 13 else month_num).
  assert (Hj : 0 <= j < 13) by (unfold j; destruct (Z.ltb_spec month_num 0); lia).
  destruct (Z.leb_spec 0 j); [|lia]. destruct (Z.ltb_spec j 13); [|lia]. cbn [andb].
  destruct (nth_error month_names (Z.to_nat j)) as [label|] eqn:Hnth; [eauto|].
  apply List.nth_error_None in Hnth. cbn in Hnth. lia.
Qed.

(** The export returns a workbook when the filter parses to a year and a
    month of the calendar, the matcher returns for every person and the
    writer takes every sheet name. *)
Lemma generate_ipmt_excel_returns db month_filter unit_name personnel_names year month_num :
  parse_month_filter month_filter = Ok (year, month_num) ->
  1 <= year <= 9999 ->
  -13 <= month_num <= 12 ->
  (forall titles name, writer_accepts titles name = true) ->
  Forall
    (fun person =>
       exists rows,
         collect_ipmt_reports db year month_num unit_name (Some [person]) = Ok rows)
    (sheet_persons db year month_num unit_name personnel_names) ->
  exists wb,
    generate_ipmt_excel writer_accepts db month_filter unit_name personnel_names = Ok wb.
Proof.
  intros Hparse Hyr Hm Hacc Hall. unfold generate_ipmt_excel. rewrite Hparse.
  cbn [mbind result_bind].
  assert (Hp : (if nobody_named personnel_names
                then year_lookup year ;; Ok (everybody db year month_num unit_name)
                else Ok (given personnel_names))
               = Ok (sheet_persons db year month_num unit_name personnel_names)).
  { unfold nobody_named, sheet_persons, year_lookup.
    destruct (Z.leb_spec 1 year); [|lia]. destruct (Z.leb_spec year 9999); [|lia].
    destruct (given personnel_names) as [|p l]; [reflexivity|].
    destruct (names_all (p :: l)); reflexivity. }
  rewrite Hp. cbn [mbind result_bind]. clear Hp.
  assert (Hw : forall written, exists out,
    write_sheets writer_accepts db year month_num unit_name
      (sheet_persons db year month_num unit_name personnel_names) written = Ok out).
  { induction Hall as [|person persons [rows Hrows] _ IH]; intros written;
      cbn [write_sheets]; [eauto|].
    unfold person_sheet. rewrite Hrows. cbn [mbind result_bind]. rewrite Hacc. cbn [negb].
    destruct (month_name_in_range month_num Hm) as [label ->]. cbn [mbind result_bind].
    apply IH. }
  destruct (Hw []) as [out ->]. cbn [mbind result_bind]. eauto.
Qed.

End ExportBuilder.

(** ** Evaluations on the sample data *)
Section Samples.
Import utils views.

(** C5 at the sample catalogue: "Plumbing" is switched off, and a text
    with one of its keywords is still classified as "Plumbing". *)
Theorem map_activity_name_inactive_match :
  ActivityName.is_active Sample.plumbing = false
  /\ map_activity_name Sample.db "Fix leaking PIPE in the lobby" = Some Sample.plumbing.
Proof. split; reflexivity. Qed.

(** The classifier never reads the active flag: every activity of the
    catalogue, in storage order, is a candidate. *)
Lemma map_activity_name_first_hit db description a :
  description <> "" ->
  List.find (keyword_hit (lower description)) (activity_names db) = Some a ->
  map_activity_name db description = Some a.
Proof.
  intros Hne Hfind. unfold map_activity_name.
  destruct description; [contradiction|]. cbn [truthy negb]. now rewrite Hfind.
Qed.

(** C4 as stated fails: with no "Miscellaneous" in the catalogue the call
    returns [None]; nothing is raised. *)
Lemma map_activity_name_without_fallback :
  Forall (fun a => ActivityName.name a <> "Miscellaneous")
    (activity_names Sample.db_without_fallback)
  /\ map_activity_name Sample.db_without_fallback "" = None
  /\ map_activity_name Sample.db_without_fallback "sweeping the yard" = None.
Proof.
  split; [|split; reflexivity].
  constructor; [discriminate|constructor].
Qed.

Lemma map_activity_name_fallback_witness :
  (exists a, map_activity_name Sample.db "sweeping the yard" = Some a
             /\ In a (activity_names Sample.db)
             /\ ActivityName.name a = "Miscellaneous")
  /\ map_activity_name Sample.db_without_fallback "sweeping the yard" = None.
Proof.
  split.
  - apply (map_activity_name_fallback Sample.db "sweeping the yard").
    + right. repeat constructor.
    + exists Sample.miscellaneous. split; [right; left; reflexivity|reflexivity].
  - apply (map_activity_name_fallback Sample.db_without_fallback "sweeping the yard").
    + right. repeat constructor.
    + constructor; [discriminate|constructor].
Defined.

(** C7 at "13-99": the filter is read as year 13, month 99, and no
    [ValueError] is raised.  With nobody named the export returns a
    workbook; with a person named [calendar.month_name[99]] raises
    [IndexError]. *)
Theorem generate_ipmt_excel_13_99 :
  parse_month_filter "13-99" = Ok (13, 99)
  /\ generate_ipmt_excel (fun _ _ => true) Sample.db "13-99" (Some "all") None
     = Ok [default_sheet]
  /\ generate_ipmt_excel (fun _ _ => true) Sample.db "13-99" (Some "Engineering")
       (Some ["Juan"])
     = Raise IndexError.
Proof. repeat split; vm_compute; reflexivity. Qed.

(** On the sample data the row of CF1 carries the id 11, the id of a report
    whose lower-cased description contains "road repair". *)
Lemma collect_ipmt_reports_first_match_witness :
  collect_ipmt_reports Sample.db 2025 9 (Some "engineering") (Some ["Juan"])
  = Ok [{| indicator := "CF1"; description := "Road Repair on Main St";
           remarks := Some ""; war_id := Some 11 |}]
  /\ exists w before after,
       WorkAccomplishmentReport.pk w = Some 11
       /\ lower (WorkAccomplishmentReport.description w)
          = before +:+ "road repair" +:+ after.
Proof.
  split; [reflexivity|].
  destruct (collect_ipmt_reports_first_match Sample.db 2025 9 (Some "engineering")
              (Some ["Juan"]) _ eq_refl)
    as [[_ Hnil]|(unit & scan & Hunit & _ & Hrows)].
  - discriminate Hnil.
  - injection Hunit as <-.
    change (List.filter _ (success_indicators Sample.db)) with [Sample.cf1] in Hrows.
    inversion Hrows as [|i r l l' Hrow Hrest]; subst.
    destruct Hrow as [_ [(Hnone & _)|(earlier & w & later & _ & _ & Hocc & Hid & _)]];
      [discriminate Hnone|].
    destruct Hocc as (before & after & Hocc).
    exists w, before, after. split; [symmetry; exact Hid|exact Hocc].
Defined.

Lemma collect_ipmt_reports_unknown_unit_witness :
  collect_ipmt_reports Sample.db 2025 9 (Some "Motorpool") (Some ["Juan"]) = Ok [].
Proof.
  apply (collect_ipmt_reports_unknown_unit Sample.db 2025 9 (Some "Motorpool")).
  intros u [<-|[]]. reflexivity.
Defined.

Lemma generate_ipmt_excel_placeholder_witness :
  exists year month_num sheets,
    parse_month_filter "2025-09" = Ok (year, month_num)
    /\ [{| title := "Juan Dela Cruz"; header := placeholder_header;
           data := placeholder_rows;
           notes := [(0, 4, "Month: September 2025");
                     (1, 4, "Personnel: Juan Dela Cruz"); (2, 4, "Unit: all")] |}]
       = match sheets with [] => [default_sheet] | _ => sheets end
    /\ Forall2
         (fun person sheet =>
            title sheet = sheet_title person
            /\ (collect_ipmt_reports Sample.db year month_num (Some "all") (Some [person])
                = Ok [] ->
                header sheet = placeholder_header /\ data sheet = placeholder_rows))
         (sheet_persons Sample.db year month_num (Some "all") None) sheets.
Proof.
  apply (generate_ipmt_excel_placeholder (fun _ _ => true) Sample.db "2025-09"
           (Some "all") None).
  vm_compute. reflexivity.
Defined.

(** A requested person whose unit has indicators gets one row for each
    indicator, with an empty accomplishment where nothing matched; the
    placeholder is for an empty result only. *)
Example generate_ipmt_excel_unmatched_person :
  generate_ipmt_excel (fun _ _ => true) Sample.db "2025-09" (Some "Engineering")
    (Some ["Pedro Santos"])
  = Ok [{| title := "Pedro Santos";
           header := ["Success Indicator"; "Accomplishment"; "Remarks"; "war_id"];
           data := [[CText "CF1"; CText ""; CText ""; CEmpty]];
           notes := [(0, 4, "Month: September 2025");
                     (1, 4, "Personnel: Pedro Santos");
                     (2, 4, "Unit: Engineering")] |}].
Proof. vm_compute. reflexivity. Qed.

Example split_ws_names : split_ws "  Juan  Dela Cruz " = ["Juan"; "Dela"; "Cruz"].
Proof. reflexivity. Qed.

Example split_ws_blank : item0 (split_ws "   ") = Raise IndexError.
Proof. reflexivity. Qed.

Example keyword_list_plumbing :
  ActivityName.keyword_list Sample.plumbing = ["pipe"; "faucet"].
Proof. reflexivity. Qed.

Example int_literals :
  int " 2_025 " = Some 2025 /\ int "-09" = Some (-9) /\ int "9_" = None
  /\ int "" = None /\ int "1 2" = None.
Proof. repeat split. Qed.

Example month_filters :
  parse_month_filter "2025-09" = Ok (2025, 9)
  /\ parse_month_filter "2025" = Raise (ValueError "Month filter must be in 'YYYY-MM' format.")
  /\ parse_month_filter "2025-09-01"
     = Raise (ValueError "Month filter must be in 'YYYY-MM' format.")
  /\ parse_month_filter "Sept-2025"
     = Raise (ValueError "Month filter must be in 'YYYY-MM' format.").
Proof. repeat split. Qed.

Example month_key_september : month_key 2025 9 = "2025-09".
Proof. reflexivity. Qed.

(** C9 at the sample request, on a draft that an earlier call linked to the
    reports 5 and 6.  Report 11 is stored, assigned to Juan and named by the
    row; the person, the unit and the indicator of the request resolve, and
    the draft has their key.  The call ends in [AttributeError], raised by
    [indicator.activity_name] before [update_or_create] and
    [reports.set], and the draft is still linked to 5 and 6. *)
Theorem save_ipmt_keeps_stale_links :
  resolve_user Sample.db "Juan Dela Cruz" = Ok (Some Sample.juan)
  /\ resolve_indicator Sample.db Sample.engineering "CF1" = Some Sample.cf1
  /\ In Sample.stored_road_repair (wars Sample.db)
  /\ WorkAccomplishmentReport.pk Sample.stored_road_repair = Some 11
  /\ In Sample.juan (WorkAccomplishmentReport.assigned_personnel Sample.stored_road_repair)
  /\ IPMT.has_key
       {| IPMT.k_personnel := 7; IPMT.k_unit := 1; IPMT.k_month := "2025-09";
          IPMT.k_indicator := 3 |} Sample.stale_draft = true
  /\ IPMTDraft.reports Sample.stale_draft = {[ 5; 6 ]}
  /\ save_ipmt Sample.summary Sample.first_of_october Sample.db Sample.post
       Sample.stale_drafts
     = (Sample.stale_drafts, Raise AttributeError).
Proof. repeat split; try reflexivity; left; reflexivity. Qed.

End Samples.

(** * Further properties *)


(** ** Keywords and classification *)
Section Keywords.
Import utils.

(** X1.  The keywords of an activity are never empty, carry no white space
    at either end and no upper-case letter: blank entries of the
    comma-separated field are dropped, so no keyword matches every text. *)
Theorem keyword_list_clean activity :
  Forall (fun kw => kw <> "" /\ strip kw = kw /\ lower kw = kw)
    (ActivityName.keyword_list activity).
Proof.
  unfold ActivityName.keyword_list. rewrite List.Forall_map.
  apply List.Forall_forall. intros x Hx. apply List.filter_In in Hx as [_ Hx].
  split; [|split].
  - intros Hempty. rewrite <- truthy_lower, Hempty in Hx. discriminate.
  - now rewrite strip_lower, strip_idem.
  - apply lower_idem.
Qed.

(** X2.  An activity hits a text exactly when one of its keywords stands
    somewhere inside the text. *)
Theorem keyword_hit_substring description activity :
  keyword_hit description activity = true <->
  exists kw before after,
    In kw (ActivityName.keyword_list activity)
    /\ description = before +:+ kw +:+ after.
Proof.
  unfold keyword_hit. rewrite List.existsb_exists. split.
  - intros (kw & Hin & Hc). apply contains_app in Hc as (x & z & Hd). eauto.
  - intros (kw & x & z & Hin & Hd). exists kw. split; [exact Hin|].
    apply contains_app. eauto.
Qed.

(** X3.  Classification does not depend on the letter case of the text. *)
Theorem map_activity_name_ignores_case db d1 d2 :
  lower d1 = lower d2 ->
  map_activity_name db d1 = map_activity_name db d2.
Proof.
  intros Hl. unfold map_activity_name.
  rewrite <- (truthy_lower d1), <- (truthy_lower d2), Hl. reflexivity.
Qed.

Lemma map_activity_name_ignores_case_witness :
  lower "ROAD Repair" = lower "road repair"
  /\ map_activity_name Sample.db "ROAD Repair" = map_activity_name Sample.db "road repair".
Proof.
  split; [reflexivity|].
  apply (map_activity_name_ignores_case Sample.db "ROAD Repair" "road repair").
  reflexivity.
Defined.

(** X4.  The first activity, in storage order, with a keyword in the text
    wins, whatever comes after it in the catalogue. *)
Theorem map_activity_name_first_in_order db description before activity after :
  description <> "" ->
  activity_names db = before ++ activity :: after ->
  Forall (fun a => keyword_hit (lower description) a = false) before ->
  keyword_hit (lower description) activity = true ->
  map_activity_name db description = Some activity.
Proof.
  intros Hne Hcat Hbefore Hhit. unfold map_activity_name.
  destruct description as [|c0 rest]; [contradiction|]. cbn [truthy negb]. rewrite Hcat.
  clear Hcat. induction Hbefore as [|a l Ha _ IH]; cbn [app List.find].
  - now rewrite Hhit.
  - rewrite Ha. exact IH.
Qed.

Lemma map_activity_name_first_in_order_witness :
  map_activity_name Sample.db "Leaking faucet" = Some Sample.plumbing.
Proof.
  apply (map_activity_name_first_in_order Sample.db "Leaking faucet" []
           Sample.plumbing [Sample.miscellaneous]).
  - discriminate.
  - reflexivity.
  - constructor.
  - reflexivity.
Defined.

(** X5.  A classification is never an activity from outside the catalogue:
    what is returned has a keyword in the lower-cased text or is the
    activity named "Miscellaneous". *)
Theorem map_activity_name_sound db description activity :
  map_activity_name db description = Some activity ->
  In activity (activity_names db)
  /\ (keyword_hit (lower description) activity = true
      \/ ActivityName.name activity = "Miscellaneous").
Proof.
  unfold map_activity_name.
  destruct (negb (truthy description)).
  - intros H. apply miscellaneous_named in H as [Hin Hn]. auto.
  - destruct (List.find _ _) as [a|] eqn:Hfind.
    + intros [= <-]. apply List.find_some in Hfind as [Hin Hhit]. auto.
    + intros H. apply miscellaneous_named in H as [Hin Hn]. auto.
Qed.

Lemma map_activity_name_sound_witness :
  In Sample.miscellaneous (activity_names Sample.db)
  /\ (keyword_hit (lower "sweeping the yard") Sample.miscellaneous = true
      \/ ActivityName.name Sample.miscellaneous = "Miscellaneous").
Proof.
  apply (map_activity_name_sound Sample.db "sweeping the yard" Sample.miscellaneous).
  reflexivity.
Defined.

Lemma map_activity_name_some db description :
  miscellaneous db <> None -> map_activity_name db description <> None.
Proof.
  intros Hm. unfold map_activity_name.
  destruct (negb (truthy description)); [exact Hm|].
  destruct (List.find _ _); [discriminate|exact Hm].
Qed.

(** X6.  When the catalogue has a "Miscellaneous" activity, a service
    request is classified by the text of its task reports alone: its own
    description is never consulted, and a request without task reports is
    "Miscellaneous" whatever it describes. *)
Theorem map_activity_name_from_reports_ignores_description db service_request :
  (exists a, In a (activity_names db) /\ ActivityName.name a = "Miscellaneous") ->
  map_activity_name_from_reports db service_request
  = map_activity_name db (join_space (ServiceRequest.reports service_request))
  /\ (ServiceRequest.reports service_request = [] ->
      map_activity_name_from_reports db service_request = miscellaneous db).
Proof.
  intros (a & Hin & Hn).
  assert (Hm : miscellaneous db <> None).
  { intros Hnone. apply miscellaneous_absent in Hnone.
    rewrite List.Forall_forall in Hnone. now apply (Hnone a Hin). }
  unfold map_activity_name_from_reports.
  pose proof (map_activity_name_some db
                (join_space (ServiceRequest.reports service_request)) Hm) as Hsome.
  destruct (map_activity_name db (join_space (ServiceRequest.reports service_request)))
    as [b|] eqn:Hb; [|contradiction].
  split; [reflexivity|]. intros Hnil. rewrite Hnil in Hb. cbn in Hb. now rewrite Hb.
Qed.

End Keywords.

Lemma map_activity_name_from_reports_ignores_description_witness :
  utils.keyword_hit (lower (ServiceRequest.description Sample2.leaking_pipe))
    Sample.plumbing = true
  /\ utils.map_activity_name_from_reports Sample.db Sample2.leaking_pipe
     = Some Sample.miscellaneous.
Proof.
  split; [reflexivity|].
  destruct (map_activity_name_from_reports_ignores_description Sample.db
              Sample2.leaking_pipe) as [_ Hnil].
  - exists Sample.miscellaneous. split; [right; left; reflexivity|reflexivity].
  - exact (Hnil eq_refl).
Defined.

(** ** The normalised date *)
Section NormalisedDate.
Import utils.

(** X7.  The row of an accomplishment report always carries an aware date
    on the day the report started: a plain date becomes midnight in the
    current zone, a naive time gets the current zone, and a time that is
    aware already is left as it is. *)
Theorem normalize_report_date_aware current_tz w :
  exists row,
    normalize_report current_tz (AWorkAccomplishmentReport w) = Ok (Some row)
    /\ is_naive (date row) = false
    /\ dt_date (date row) = date_of (WorkAccomplishmentReport.date_started w)
    /\ match WorkAccomplishmentReport.date_started w with
       | ADate _ => dt_time (date row) = 0 /\ dt_tz (date row) = Some current_tz
       | ADateTime t =>
           dt_time (date row) = dt_time t
           /\ dt_tz (date row) = Some (match dt_tz t with Some z => z | None => current_tz end)
       end.
Proof.
  unfold normalize_report.
  destruct (WorkAccomplishmentReport.date_started w) as [d|t].
  - cbn. eexists. split; [reflexivity|]. cbn. auto.
  - unfold make_aware, is_naive. destruct t as [d tm [z|]]; cbn;
      eexists; (split; [reflexivity|]); cbn; auto.
Qed.

End NormalisedDate.

(** ** The matcher: scope, sentinel and errors *)
Section MatcherScope.
Import utils.

(** X8.  An indicator matches a report exactly when the lower-cased
    description of the indicator stands somewhere inside the lower-cased
    description of the report. *)
Theorem indicator_matches_substring indicator war :
  indicator_matches indicator war = true <->
  exists before after,
    lower (WorkAccomplishmentReport.description war)
    = before +:+ lower (SuccessIndicator.description indicator) +:+ after.
Proof. unfold indicator_matches. rewrite str_or_empty. apply contains_app. Qed.

Lemma forall2_in_right {A B : Type} (R : A -> B -> Prop) l ys y :
  Forall2 R l ys -> In y ys -> exists x, In x l /\ R x y.
Proof.
  induction 1 as [|x y' l ys Hxy _ IH]; intros Hin; [destruct Hin|].
  destruct Hin as [->|Hin].
  - exists x. split; [now left|exact Hxy].
  - destruct (IH Hin) as (x' & Hx' & HR). exists x'. split; [now right|exact HR].
Qed.

Lemma first_tokens_blank names :
  Exists (fun p => split_ws p = []) names ->
  comprehension (fun p => item0 (split_ws p)) names = Raise IndexError.
Proof.
  unfold comprehension. induction names as [|p names IH]; intros Hex; [inversion Hex|].
  cbn. destruct (split_ws p) as [|tok rest] eqn:Hp; cbn; [reflexivity|].
  inversion Hex as [? ? Hhere|? ? Hthere]; subst; [congruence|].
  rewrite (IH Hthere). reflexivity.
Qed.

Lemma filter_first_name_in_spec names wars w :
  In w (filter_first_name_in names wars) <->
  In w wars
  /\ exists p, In p (WorkAccomplishmentReport.assigned_personnel w)
               /\ In (User.first_name p) names.
Proof.
  unfold filter_first_name_in. rewrite List.in_flat_map. split.
  - intros (w' & Hw' & Hin). apply List.in_map_iff in Hin as (p & <- & Hp).
    apply List.filter_In in Hp as [Hp Hname]. split; [exact Hw'|]. exists p.
    split; [exact Hp|]. apply List.existsb_exists in Hname as (n & Hn & Heq).
    apply String.eqb_eq in Heq. now rewrite Heq.
  - intros (Hw & p & Hp & Hname). exists w. split; [exact Hw|].
    apply List.in_map_iff. exists p. split; [reflexivity|].
    apply List.filter_In. split; [exact Hp|]. apply List.existsb_exists.
    exists (User.first_name p). split; [exact Hname|apply String.eqb_refl].
Qed.

(** A candidate of the matcher is always a report of the resolved unit,
    started in the requested year and month; under a personnel filter it
    also has an assigned person whose first name is, letter for letter, the
    first word of a requested name. *)
Lemma candidates_in_scope db unit year month_num personnel_names found :
  candidates db unit year month_num personnel_names = Ok found ->
  Forall
    (fun w =>
       In w (wars db)
       /\ Unit.pk (WorkAccomplishmentReport.unit w) = Unit.pk unit
       /\ in_month year month_num w = true
       /\ (given personnel_names <> [] ->
           names_all (given personnel_names) = false ->
           exists p name,
             In p (WorkAccomplishmentReport.assigned_personnel w)
             /\ In name (given personnel_names)
             /\ item0 (split_ws name) = Ok (User.first_name p)))
    found.
Proof.
  unfold candidates. intros Hc. apply List.Forall_forall. intros w Hw.
  assert (Hbase : forall w',
    In w' (List.filter
            (fun w => (Unit.pk (WorkAccomplishmentReport.unit w) =? Unit.pk unit)
                      && in_month year month_num w) (wars db)) ->
    In w' (wars db)
    /\ Unit.pk (WorkAccomplishmentReport.unit w') = Unit.pk unit
    /\ in_month year month_num w' = true).
  { intros w' Hin. apply List.filter_In in Hin as [Hin Hb].
    apply andb_true_iff in Hb as [Hu Hm]. apply Z.eqb_eq in Hu. auto. }
  destruct (given personnel_names) as [|p l] eqn:Hnames.
  - injection Hc as <-. destruct (Hbase w Hw) as (H1 & H2 & H3).
    repeat split; try assumption. intros Hne. now destruct Hne.
  - destruct (names_all (p :: l)) eqn:Hall.
    + injection Hc as <-. destruct (Hbase w Hw) as (H1 & H2 & H3).
      repeat split; try assumption. discriminate.
    + destruct (comprehension (fun p => item0 (split_ws p)) (p :: l)) as [firsts|e] eqn:Hf;
        cbn [mbind result_bind] in Hc; [|discriminate].
      injection Hc as <-. apply filter_first_name_in_spec in Hw as (Hw & q & Hq & Hname).
      destruct (Hbase w Hw) as (H1 & H2 & H3). repeat split; try assumption.
      intros _ _. apply comprehension_forall2 in Hf.
      destruct (forall2_in_right _ _ _ _ Hf Hname) as (name & Hin & Hname').
      exists q, name. auto.
Qed.

(** X9.  A report id in a row of the matcher is never the id of a report
    of another unit or month: it belongs to a stored report of the unit the
    name resolved to, started in the requested year and month, whose
    description the row carries; under a personnel filter that report has
    an assigned person whose first name is the first word of a requested
    name. *)
Theorem collect_ipmt_reports_matched_in_scope db year month_num unit_name personnel_names rows :
  collect_ipmt_reports db year month_num unit_name personnel_names = Ok rows ->
  rows = [] \/
  exists unit,
    In unit (units db) /\ iexact (Unit.name unit) unit_name = true
    /\ Forall
         (fun row =>
            forall k, war_id row = Some k ->
              exists w,
                In w (wars db)
                /\ WorkAccomplishmentReport.pk w = Some k
                /\ description row = WorkAccomplishmentReport.description w
                /\ Unit.pk (WorkAccomplishmentReport.unit w) = Unit.pk unit
                /\ in_month year month_num w = true
                /\ (given personnel_names <> [] ->
                    names_all (given personnel_names) = false ->
                    exists p name,
                      In p (WorkAccomplishmentReport.assigned_personnel w)
                      /\ In name (given personnel_names)
                      /\ item0 (split_ws name) = Ok (User.first_name p)))
         rows.
Proof.
  unfold collect_ipmt_reports.
  destruct (List.filter _ (units db)) as [|unit [|? ?]] eqn:Hunits;
    cbn [qs_get mbind result_bind]; [intros [= <-]; now left| |discriminate].
  destruct (candidates db unit year month_num personnel_names) as [found|e] eqn:Hc;
    cbn [mbind result_bind]; [|discriminate].
  intros Hrows. apply indicator_rows in Hrows. subst rows. right. exists unit.
  assert (Hu : In unit (List.filter (fun u => iexact (Unit.name u) unit_name) (units db)))
    by (rewrite Hunits; now left).
  apply List.filter_In in Hu as [Hin Hname]. split; [exact Hin|]. split; [exact Hname|].
  apply candidates_in_scope in Hc. rewrite List.Forall_forall in Hc.
  rewrite List.Forall_map. apply List.Forall_forall. intros indicator _ k Hk.
  destruct (report_row_first db unit year month_num found indicator)
    as [_ [(Hnone & _)|(before & w & after & Hsplit & _ & _ & Hid & Hdesc)]].
  - rewrite Hnone in Hk. discriminate.
  - assert (Hw : In w found) by (rewrite Hsplit; apply List.in_or_app; right; now left).
    destruct (Hc w Hw) as (H1 & H2 & H3 & H4).
    exists w. rewrite <- Hid. repeat split; assumption.
Qed.

Lemma collect_ipmt_reports_matched_in_scope_witness :
  exists unit,
    In unit (units Sample.db) /\ iexact (Unit.name unit) (Some "engineering") = true
    /\ Forall
         (fun row =>
            forall k, war_id row = Some k ->
              exists w,
                In w (wars Sample.db)
                /\ WorkAccomplishmentReport.pk w = Some k
                /\ description row = WorkAccomplishmentReport.description w
                /\ Unit.pk (WorkAccomplishmentReport.unit w) = Unit.pk unit
                /\ in_month 2025 9 w = true
                /\ (given (Some ["Juan Dela Cruz"]) <> [] ->
                    names_all (given (Some ["Juan Dela Cruz"])) = false ->
                    exists p name,
                      In p (WorkAccomplishmentReport.assigned_personnel w)
                      /\ In name (given (Some ["Juan Dela Cruz"]))
                      /\ item0 (split_ws name) = Ok (User.first_name p)))
         [{| indicator := "CF1"; description := "Road Repair on Main St";
             remarks := Some ""; war_id := Some 11 |}].
Proof.
  destruct (collect_ipmt_reports_matched_in_scope Sample.db 2025 9 (Some "engineering")
              (Some ["Juan Dela Cruz"]) _ eq_refl) as [Hnil|Hscope].
  - discriminate Hnil.
  - exact Hscope.
Defined.

(** X10.  A personnel list that holds "all", in any letter case, filters
    nothing: the result is the one of a call without personnel, even when
    the list also holds a blank name. *)
Theorem collect_ipmt_reports_all_sentinel db year month_num unit_name personnel_names :
  names_all personnel_names = true ->
  collect_ipmt_reports db year month_num unit_name (Some personnel_names)
  = collect_ipmt_reports db year month_num unit_name None.
Proof.
  intros Hall. unfold collect_ipmt_reports, candidates. cbn [given].
  destruct personnel_names as [|p l]; [reflexivity|]. now rewrite Hall.
Qed.

Lemma collect_ipmt_reports_all_sentinel_witness :
  collect_ipmt_reports Sample.db 2025 9 (Some "Engineering") (Some ["  "; "ALL"])
  = collect_ipmt_reports Sample.db 2025 9 (Some "Engineering") None.
Proof.
  apply (collect_ipmt_reports_all_sentinel Sample.db 2025 9 (Some "Engineering")
           ["  "; "ALL"]).
  reflexivity.
Defined.

(** X11.  With the unit found and no "all" among the names, a requested
    name that is empty or all white space makes the matcher raise
    [IndexError]: such a name has no first word. *)
Theorem collect_ipmt_reports_blank_name db year month_num unit_name personnel_names unit :
  List.filter (fun u => iexact (Unit.name u) unit_name) (units db) = [unit] ->
  names_all personnel_names = false ->
  Exists (fun p => split_ws p = []) personnel_names ->
  collect_ipmt_reports db year month_num unit_name (Some personnel_names)
  = Raise IndexError.
Proof.
  intros Hunit Hall Hblank. unfold collect_ipmt_reports, candidates.
  rewrite Hunit. cbn [qs_get mbind result_bind given].
  destruct personnel_names as [|p l]; [inversion Hblank|].
  rewrite Hall, (first_tokens_blank (p :: l) Hblank). reflexivity.
Qed.

Lemma collect_ipmt_reports_blank_name_witness :
  collect_ipmt_reports Sample.db 2025 9 (Some "Engineering") (Some ["Juan"; "   "])
  = Raise IndexError.
Proof.
  apply (collect_ipmt_reports_blank_name Sample.db 2025 9 (Some "Engineering")
           ["Juan"; "   "] Sample.engineering).
  - reflexivity.
  - reflexivity.
  - right. left. reflexivity.
Defined.

(** X12.  When two or more units have the name, compared without letter
    case, the matcher raises [MultipleObjectsReturned]: only the absence of
    a unit is answered with the empty list. *)
Theorem collect_ipmt_reports_ambiguous_unit db year month_num unit_name personnel_names :
  (2 <= length (List.filter (fun u => iexact (Unit.name u) unit_name) (units db)))%nat ->
  collect_ipmt_reports db year month_num unit_name personnel_names
  = Raise MultipleObjectsReturned.
Proof.
  intros Htwo. unfold collect_ipmt_reports.
  destruct (List.filter _ (units db)) as [|u1 [|u2 l]]; cbn in Htwo; try lia. reflexivity.
Qed.

Lemma collect_ipmt_reports_ambiguous_unit_witness :
  collect_ipmt_reports Sample2.db_two_units 2025 9 (Some "engineering") None
  = Raise MultipleObjectsReturned.
Proof.
  apply (collect_ipmt_reports_ambiguous_unit Sample2.db_two_units 2025 9
           (Some "engineering") None).
  vm_compute. lia.
Defined.

Lemma first_tokens_raise names e :
  comprehension (fun p => item0 (split_ws p)) names = Raise e -> e = IndexError.
Proof.
  unfold comprehension. induction names as [|q names IH]; cbn; [discriminate|].
  destruct (split_ws q) as [|tok rest]; cbn; [now intros [= <-]|].
  destruct (mapM _ names) as [ys|e0]; cbn; [discriminate|].
  intros [= <-]. now apply IH.
Qed.

Lemma indicator_rows_raise db unit year month_num scan indicators e :
  comprehension
    (fun indicator =>
       wars ← run_query year scan; Ok (report_row db unit year month_num wars indicator))
    indicators = Raise e ->
  ~ (1 <= year <= 9999) /\ year_lookup year = Raise e.
Proof.
  destruct (year_lookup year) as [[]|e'] eqn:Hy.
  - intros H. exfalso. revert H. unfold comprehension, run_query. rewrite Hy.
    induction indicators as [|i l IH]; cbn; [discriminate|].
    destruct (mapM _ l) as [rows|e0]; cbn in *; [discriminate|]. exact IH.
  - unfold comprehension, run_query. rewrite Hy.
    destruct indicators as [|i l]; cbn; [discriminate|]. intros [= <-].
    split; [|reflexivity]. intros Hyr. revert Hy. unfold year_lookup.
    destruct (Z.leb_spec 1 year); [|lia]. destruct (Z.leb_spec year 9999); [|lia].
    discriminate.
Qed.

(** What the matcher can raise: the [IndexError] of a blank name, the
    [MultipleObjectsReturned] of an ambiguous unit name, and the
    [ValueError] of a year that is no year of a date. *)
Lemma collect_ipmt_reports_raises db year month_num unit_name personnel_names e :
  collect_ipmt_reports db year month_num unit_name personnel_names = Raise e ->
  e = IndexError \/ e = MultipleObjectsReturned
  \/ (~ (1 <= year <= 9999) /\ year_lookup year = Raise e).
Proof.
  unfold collect_ipmt_reports.
  destruct (List.filter _ (units db)) as [|unit [|? ?]];
    cbn [qs_get mbind result_bind]; [discriminate| |intros [= <-]; auto].
  destruct (candidates db unit year month_num personnel_names) as [scan|e'] eqn:Hc;
    cbn [mbind result_bind].
  - intros H. apply indicator_rows_raise in H. auto.
  - intros [= <-]. left. revert Hc. unfold candidates.
    destruct (given personnel_names) as [|p l]; [discriminate|].
    destruct (names_all (p :: l)); [discriminate|].
    destruct (comprehension _ (p :: l)) as [firsts|e0] eqn:Hf;
      cbn [mbind result_bind]; [discriminate|].
    intros [= <-]. eapply first_tokens_raise, Hf.
Qed.

End MatcherScope.

(** ** The export: persons, sheets and errors *)
Section ExportPersons.
Import utils.

Lemma list_set_acc l : forall acc,
  NoDup acc ->
  NoDup (fold_left (fun acc x => if existsb (String.eqb x) acc then acc else acc ++ [x]) l acc)
  /\ forall x,
       In x (fold_left
               (fun acc x => if existsb (String.eqb x) acc then acc else acc ++ [x]) l acc)
       <-> In x acc \/ In x l.
Proof.
  induction l as [|y l IH]; intros acc Hnd; cbn [fold_left].
  - split; [exact Hnd|]. intros x. cbn. tauto.
  - destruct (existsb (String.eqb y) acc) eqn:Hy.
    + destruct (IH acc Hnd) as [Hnd' Hin]. split; [exact Hnd'|].
      intros x. rewrite Hin. cbn. split; [tauto|]. intros [H|[<-|H]]; auto.
      left. apply List.existsb_exists in Hy as (z & Hz & Heq).
      apply String.eqb_eq in Heq. now subst z.
    + assert (Hnotin : ~ In y acc).
      { intros Hin. apply Bool.not_true_iff_false in Hy. apply Hy.
        apply List.existsb_exists. exists y. split; [exact Hin|apply String.eqb_refl]. }
      destruct (IH (acc ++ [y])) as [Hnd' Hin].
      * apply NoDup_app. split; [exact Hnd|]. split; [|apply NoDup_singleton].
        intros z Hz [->|[]]%list_elem_of_In. apply Hnotin. now apply list_elem_of_In.
      * split; [exact Hnd'|]. intros x. rewrite Hin, List.in_app_iff. cbn. tauto.
Qed.

(** X13.  When nobody or "all" is named, the persons of the workbook are
    the display names of the people assigned to a report started in the
    month (of the named unit, unless the unit is "all"), each listed
    once. *)
Theorem sheet_persons_everybody db year month_num unit_name personnel_names :
  given personnel_names = [] \/ names_all (given personnel_names) = true ->
  NoDup (sheet_persons db year month_num unit_name personnel_names)
  /\ forall name,
       In name (sheet_persons db year month_num unit_name personnel_names) <->
       exists w p,
         In w (wars db) /\ in_month year month_num w = true
         /\ match unit_name with
            | Some u =>
                truthy u && negb (String.eqb (lower u) "all") = true ->
                iexact (Unit.name (WorkAccomplishmentReport.unit w)) (Some u) = true
            | None => True
            end
         /\ In p (WorkAccomplishmentReport.assigned_personnel w)
         /\ name = User.display_name p.
Proof.
  intros Hall.
  assert (Hev : sheet_persons db year month_num unit_name personnel_names
                = everybody db year month_num unit_name).
  { unfold sheet_persons. destruct (given personnel_names) as [|p l]; [reflexivity|].
    destruct Hall as [Hnil|Hall]; [discriminate|]. now rewrite Hall. }
  rewrite Hev. unfold everybody, list_set.
  match goal with |- context [fold_left _ ?l []] => set (names := l) end.
  destruct (list_set_acc names [] (NoDup_nil_2)) as [Hnd Hin]. split; [exact Hnd|].
  intros name. rewrite Hin. cbn [In]. unfold names. rewrite List.in_flat_map. split.
  - intros [[]|(w & Hw & Hp)]. apply List.in_map_iff in Hp as (p & <- & Hp).
    exists w, p. destruct unit_name as [u|].
    + destruct (truthy u && negb (String.eqb (lower u) "all")) eqn:Hu.
      * apply List.filter_In in Hw as [Hw Hunit]. apply List.filter_In in Hw as [Hw Hm].
        repeat split; auto.
      * apply List.filter_In in Hw as [Hw Hm]. repeat split; auto. discriminate.
    + apply List.filter_In in Hw as [Hw Hm]. repeat split; auto.
  - intros (w & p & Hw & Hm & Hunit & Hp & ->). right. exists w. split.
    + destruct unit_name as [u|].
      * destruct (truthy u && negb (String.eqb (lower u) "all")) eqn:Hu.
        -- apply List.filter_In. split; [apply List.filter_In; auto|]. now apply Hunit.
        -- apply List.filter_In. auto.
      * apply List.filter_In. auto.
    + apply List.in_map_iff. eauto.
Qed.

Lemma sheet_persons_everybody_witness :
  NoDup (sheet_persons Sample.db 2025 9 (Some "all") None)
  /\ In "Juan Dela Cruz" (sheet_persons Sample.db 2025 9 (Some "all") None).
Proof.
  destruct (sheet_persons_everybody Sample.db 2025 9 (Some "all") None) as [Hnd Hin].
  - left. reflexivity.
  - split; [exact Hnd|]. apply Hin.
    exists Sample.stored_road_repair, Sample.juan.
    repeat split; try reflexivity; try (now left). discriminate.
Defined.

End ExportPersons.

Section ExportShape.
Import utils.
Variable writer_accepts : list string -> string -> bool.

Lemma length_substring m : forall s,
  String.length (String.substring 0 m s) = Nat.min m (String.length s).
Proof.
  induction m as [|m IH]; intros [|c s]; cbn; try reflexivity. now rewrite IH.
Qed.

Lemma sheet_title_bounds person :
  (1 <= String.length (sheet_title person) <= 30)%nat.
Proof.
  unfold sheet_title.
  destruct (Nat.ltb_spec 30 (String.length person)) as [Hlong|Hshort].
  - pose proof (length_substring 30 person) as Hlen.
    rewrite Nat.min_l in Hlen by lia.
    destruct (String.substring 0 30 person) as [|c t] eqn:Hs; [discriminate Hlen|].
    cbn [str_or truthy]. rewrite Hlen. lia.
  - destruct person as [|c t]; cbn in *; lia.
Qed.

(** X14.  Every sheet of a returned workbook has a title of one to thirty
    characters: a long name is cut to its first thirty characters and an
    empty one becomes "Unassigned". *)
Theorem generate_ipmt_excel_titles db month_filter unit_name personnel_names wb :
  generate_ipmt_excel writer_accepts db month_filter unit_name personnel_names = Ok wb ->
  Forall (fun sheet => (1 <= String.length (title sheet) <= 30)%nat) wb.
Proof.
  unfold generate_ipmt_excel.
  destruct (parse_month_filter month_filter) as [[year month_num]|e];
    cbn [mbind result_bind]; [|discriminate].
  destruct (if nobody_named _ then _ else _) as [persons|e];
    cbn [mbind result_bind]; [|discriminate].
  destruct (write_sheets _ _ _ _ _ _ _) as [sheets|e] eqn:Hw;
    cbn [mbind result_bind]; [|discriminate].
  intros [= <-].
  apply write_sheets_each in Hw as (sheets' & Heq & Hall). cbn [app] in Heq. subst sheets'.
  destruct sheets as [|sh rest]; [constructor; [cbn; lia|constructor]|].
  remember (sh :: rest) as l eqn:Hl. clear Hl.
  induction Hall as [|person sheet persons l' [titles Hs] _ IH]; constructor; [|exact IH].
  apply person_sheet_placeholder in Hs as [-> _]. apply sheet_title_bounds.
Qed.

End ExportShape.

Lemma generate_ipmt_excel_titles_witness :
  Forall (fun sheet => (1 <= String.length (utils.title sheet) <= 30)%nat)
    [{| utils.title := "Juan Dela Cruz"; utils.header := utils.placeholder_header;
        utils.data := utils.placeholder_rows;
        utils.notes := [(0, 4, "Month: September 2025");
                        (1, 4, "Personnel: Juan Dela Cruz"); (2, 4, "Unit: all")] |}].
Proof.
  apply (generate_ipmt_excel_titles (fun _ _ => true) Sample.db "2025-09" (Some "all") None).
  vm_compute. reflexivity.
Defined.

(** ** The month filter *)
Section MonthFilter.
Import utils.

Lemma parse_digits_nonneg s : forall acc after z,
  0 <= acc -> parse_digits acc after s = Some z -> 0 <= z.
Proof.
  induction s as [|c s IH]; intros acc after z Hacc; cbn [parse_digits].
  - destruct after; [now intros [= <-]|discriminate].
  - destruct (is_digit c) eqn:Hd.
    + apply IH. unfold is_digit in Hd. apply andb_true_iff in Hd as [Hlo _].
      apply N.leb_le in Hlo. unfold digit_val. lia.
    + destruct (Ascii.eqb c "_" && after); [|discriminate].
      destruct s as [|c' s']; [discriminate|].
      destruct (is_digit c'); [|discriminate]. now apply IH.
Qed.

(** A negative integer literal starts, after white space, with the minus
    sign. *)
Lemma int_negative s z :
  int s = Some z -> z < 0 -> exists r, strip s = String "-" r.
Proof.
  unfold int. destruct (strip s) as [|c r].
  - cbn. discriminate.
  - destruct (Ascii.eqb_spec c "-") as [->|Hminus]; [eauto|].
    destruct (Ascii.eqb_spec c "+") as [->|Hplus].
    + intros H Hz. apply parse_digits_nonneg in H; lia.
    + intros H Hz. exfalso.
      assert (Hp : parse_digits 0 false (String c r) = Some z).
      { revert H. destruct c as [[] [] [] [] [] [] [] []]; try (intros H; exact H);
          contradiction. }
      apply parse_digits_nonneg in Hp; lia.
Qed.

Lemma lstrip_head s c t :
  lstrip s = String c t -> In c (list_ascii_of_string s).
Proof.
  induction s as [|c' s IH]; cbn [lstrip list_ascii_of_string]; [discriminate|].
  destruct (is_space c'); [intros H; right; now apply IH|].
  intros [= -> _]. now left.
Qed.

Lemma strip_head s c r :
  strip s = String c r -> In c (list_ascii_of_string s).
Proof.
  unfold strip. destruct (lstrip s) as [|c' t] eqn:Hl; [discriminate|].
  intros Hr. apply rstrip_head in Hr. subst c. eapply lstrip_head, Hl.
Qed.

(** No part of a split holds the separator. *)
Lemma split_on_parts sep s :
  Forall (fun part => ~ In sep (list_ascii_of_string part)) (split_on sep s).
Proof.
  induction s as [|c s IH]; cbn [split_on].
  - constructor; [intros []|constructor].
  - destruct (Ascii.eqb_spec c sep) as [->|Hne].
    + constructor; [intros []|exact IH].
    + destruct (split_on sep s) as [|h t].
      * constructor; [|constructor]. cbn. intros [H|[]]. contradiction.
      * inversion IH as [|? ? Hh Ht]; subst. constructor; [|exact Ht].
        cbn. intros [H|H]; [contradiction|now apply Hh].
Qed.

(** X15.  The month filter check never lets a negative number through:
    the filter is split at every dash, so no part keeps a minus sign, and a
    filter that is accepted gives a year and a month that are zero or
    more.  The months the calendar does not have are then those above 12
    and the month 0, whose name is the empty text. *)
Theorem parse_month_filter_nonnegative month_filter year month_num :
  parse_month_filter month_filter = Ok (year, month_num) ->
  0 <= year /\ 0 <= month_num.
Proof.
  unfold parse_month_filter. pose proof (split_on_parts "-" month_filter) as Hparts.
  destruct (split_on "-" month_filter) as [|a [|b [|c l]]]; cbn [List.map];
    try discriminate.
  - destruct (int a); discriminate.
  - destruct (int a) as [y|] eqn:Ha, (int b) as [m|] eqn:Hb; try discriminate.
    intros [= <- <-].
    inversion Hparts as [|? ? Pa Hrest]; subst. inversion Hrest as [|? ? Pb _]; subst.
    split.
    + destruct (Z.lt_ge_cases y 0) as [Hneg|]; [|assumption].
      destruct (int_negative a y Ha Hneg) as [r Hr]. apply strip_head in Hr. contradiction.
    + destruct (Z.lt_ge_cases m 0) as [Hneg|]; [|assumption].
      destruct (int_negative b m Hb Hneg) as [r Hr]. apply strip_head in Hr. contradiction.
  - destruct (int a), (int b); discriminate.
Qed.

End MonthFilter.

Lemma parse_month_filter_nonnegative_witness :
  utils.parse_month_filter " 2025-+9" = Ok (2025, 9) /\ 0 <= 2025 /\ 0 <= 9.
Proof.
  split; [reflexivity|].
  apply (parse_month_filter_nonnegative " 2025-+9" 2025 9). reflexivity.
Defined.

(** ** The export view and its errors *)
Section ExportView.
Import utils views_read.
Variable writer_accepts : list string -> string -> bool.

Lemma month_name_out_of_range month_num :
  12 < month_num -> month_name month_num = Raise IndexError.
Proof.
  intros Hm. unfold month_name.
  destruct (Z.ltb_spec month_num 0) as [Hneg|Hpos]; [lia|].
  destruct (Z.ltb_spec month_num 13); [lia|]. now rewrite andb_false_r.
Qed.

(** What writing one sheet can raise. *)
Lemma person_sheet_raises db year month_num unit_name titles person e :
  person_sheet writer_accepts db year month_num unit_name titles person = Raise e ->
  e = IndexError \/ e = MultipleObjectsReturned \/ e = InvalidWorksheetName
  \/ (~ (1 <= year <= 9999) /\ year_lookup year = Raise e).
Proof.
  unfold person_sheet.
  destruct (collect_ipmt_reports db year month_num unit_name (Some [person]))
    as [reports|e'] eqn:Hc; cbn [mbind result_bind].
  - destruct (negb (writer_accepts titles (sheet_title person))); [intros [= <-]; auto|].
    unfold month_name.
    destruct ((0 <=? _) && (_ <? 13)); [|cbn; intros [= <-]; auto].
    destruct (nth_error month_names _); cbn; [discriminate|intros [= <-]; auto].
  - intros [= <-]. apply collect_ipmt_reports_raises in Hc as [->|[->|H]]; auto.
Qed.

Lemma write_sheets_raises db year month_num unit_name persons : forall written e,
  write_sheets writer_accepts db year month_num unit_name persons written = Raise e ->
  e = IndexError \/ e = MultipleObjectsReturned \/ e = InvalidWorksheetName
  \/ (~ (1 <= year <= 9999) /\ year_lookup year = Raise e).
Proof.
  induction persons as [|person persons IH]; intros written e; cbn [write_sheets];
    [discriminate|].
  destruct (person_sheet writer_accepts db year month_num unit_name
              (List.map title written) person) as [sheet|e'] eqn:Hs;
    cbn [mbind result_bind].
  - apply IH.
  - intros [= <-]. eapply person_sheet_raises, Hs.
Qed.

Lemma year_lookup_raises year e :
  year_lookup year = Raise e -> ~ (1 <= year <= 9999).
Proof.
  unfold year_lookup. intros H Hyr. revert H.
  destruct (Z.leb_spec 1 year); [|lia]. destruct (Z.leb_spec year 9999); [|lia].
  discriminate.
Qed.

Lemma year_lookup_value_error year msg :
  year_lookup year = Raise (ValueError msg) ->
  msg = "year " +:+ str year +:+ " is out of range".
Proof.
  unfold year_lookup. destruct ((1 <=? year) && (year <=? 9999)); [discriminate|].
  destruct ((- 2 ^ 31 <=? year) && (year <? 2 ^ 31)); [|discriminate].
  now intros [= <-].
Qed.

Lemma parse_month_filter_message month_filter e :
  parse_month_filter month_filter = Raise e ->
  e = ValueError "Month filter must be in 'YYYY-MM' format.".
Proof.
  unfold parse_month_filter.
  destruct (List.map int _) as [|[y|] [|[mn|] [|? ?]]]; try discriminate;
    now intros [= <-].
Qed.

(** What the export can raise: the format error of its month filter, and
    after that what the matcher, the calendar and the sheet names raise. *)
Lemma generate_ipmt_excel_raises db month_filter unit_name personnel_names e :
  generate_ipmt_excel writer_accepts db month_filter unit_name personnel_names = Raise e ->
  (parse_month_filter month_filter = Raise e
   /\ e = ValueError "Month filter must be in 'YYYY-MM' format.")
  \/ exists year month_num,
       parse_month_filter month_filter = Ok (year, month_num)
       /\ (e = IndexError \/ e = MultipleObjectsReturned \/ e = InvalidWorksheetName
           \/ (~ (1 <= year <= 9999) /\ year_lookup year = Raise e)).
Proof.
  unfold generate_ipmt_excel.
  destruct (parse_month_filter month_filter) as [[year month_num]|e'] eqn:Hparse;
    cbn [mbind result_bind].
  - intros H. right. exists year, month_num. split; [reflexivity|]. revert H.
    destruct (nobody_named personnel_names).
    + destruct (year_lookup year) as [[]|e'] eqn:Hy; cbn [mbind result_bind].
      * destruct (write_sheets _ _ _ _ _ _ _) as [sheets|e'] eqn:Hw;
          cbn [mbind result_bind]; [discriminate|].
        intros [= <-]. apply write_sheets_raises in Hw. rewrite Hy in Hw. exact Hw.
      * intros [= <-]. do 3 right. split; [|reflexivity].
        eapply year_lookup_raises, Hy.
    + cbn [mbind result_bind].
      destruct (write_sheets _ _ _ _ _ _ _) as [sheets|e'] eqn:Hw;
        cbn [mbind result_bind]; [discriminate|].
      intros [= <-]. eapply write_sheets_raises, Hw.
  - intros [= <-]. left. split; [reflexivity|]. eapply parse_month_filter_message, Hparse.
Qed.

(** X16.  A filter that parses to a year of the calendar and a month above
    12 is not answered as a format error: as soon as there is a person to
    write a sheet for, the export raises, and what it raises is not a
    [ValueError]. *)
Theorem generate_ipmt_excel_month_out_of_calendar db month_filter unit_name personnel_names
    year month_num :
  parse_month_filter month_filter = Ok (year, month_num) ->
  1 <= year <= 9999 ->
  12 < month_num ->
  sheet_persons db year month_num unit_name personnel_names <> [] ->
  exists e,
    generate_ipmt_excel writer_accepts db month_filter unit_name personnel_names = Raise e
    /\ (e = IndexError \/ e = MultipleObjectsReturned \/ e = InvalidWorksheetName).
Proof.
  intros Hparse Hyr Hm Hpersons.
  destruct (generate_ipmt_excel writer_accepts db month_filter unit_name personnel_names)
    as [wb|e] eqn:Hg.
  - exfalso. revert Hg. unfold generate_ipmt_excel. rewrite Hparse.
    cbn [mbind result_bind].
    destruct (if nobody_named _ then _ else _) as [persons|e] eqn:Hp;
      cbn [mbind result_bind]; [|discriminate].
    apply export_persons in Hp. subst persons.
    destruct (sheet_persons db year month_num unit_name personnel_names) as [|person rest];
      [contradiction|].
    cbn [write_sheets]. unfold person_sheet at 1.
    destruct (collect_ipmt_reports _ _ _ _ _); cbn [mbind result_bind]; [|discriminate].
    destruct (negb _); [discriminate|].
    rewrite (month_name_out_of_range month_num Hm). discriminate.
  - exists e. split; [reflexivity|].
    apply generate_ipmt_excel_raises in Hg
      as [[Hp _]|(y & m & Hp & [H|[H|[H|[Hout _]]]])]; auto.
    + congruence.
    + rewrite Hparse in Hp. injection Hp as <- <-. contradiction.
Qed.

(** X17.  The export view answers 400 in three cases only: the month is
    missing or empty; the month filter does not parse; the year of the
    filter is no year of a date, 1 to 9999, and the store is asked for its
    reports, the message then being the one of the date.  In the first two
    cases, and in the third when nobody or "all" is named, it always does.
    What the matcher, the calendar or the sheet names raise otherwise is
    not turned into an answer, nor is the [OverflowError] of a year that
    does not fit a C [int]. *)
Theorem generate_ipmt_bad_request db q :
  (forall msg,
     generate_ipmt writer_accepts db q = Ok (Plain msg 400) ->
     (truthy (views.text (q_month q)) = false
      /\ msg = "Month is required in 'YYYY-MM' format.")
     \/ (truthy (views.text (q_month q)) = true
         /\ parse_month_filter (views.text (q_month q))
            = Raise (ValueError "Month filter must be in 'YYYY-MM' format.")
         /\ msg = "Month filter must be in 'YYYY-MM' format.")
     \/ (truthy (views.text (q_month q)) = true
         /\ exists year month_num,
              parse_month_filter (views.text (q_month q)) = Ok (year, month_num)
              /\ ~ (1 <= year <= 9999) /\ - 2 ^ 31 <= year < 2 ^ 31
              /\ msg = "year " +:+ str year +:+ " is out of range"))
  /\ (truthy (views.text (q_month q)) = false ->
      generate_ipmt writer_accepts db q
      = Ok (Plain "Month is required in 'YYYY-MM' format." 400))
  /\ (forall e,
        truthy (views.text (q_month q)) = true ->
        parse_month_filter (views.text (q_month q)) = Raise e ->
        generate_ipmt writer_accepts db q
        = Ok (Plain "Month filter must be in 'YYYY-MM' format." 400))
  /\ (forall year month_num msg,
        truthy (views.text (q_month q)) = true ->
        parse_month_filter (views.text (q_month q)) = Ok (year, month_num) ->
        year_lookup year = Raise (ValueError msg) ->
        nobody_named (Some (q_personnel q)) = true ->
        generate_ipmt writer_accepts db q = Ok (Plain msg 400)).
Proof.
  unfold generate_ipmt. split; [|split; [|split]].
  - intros msg.
    destruct (truthy (views.text (q_month q))) eqn:Hmonth; cbn [negb];
      [|intros [= <-]; left; auto].
    destruct (generate_ipmt_excel writer_accepts db (views.text (q_month q))
                (Some (unit_filter_of q)) (Some (q_personnel q))) as [wb|e] eqn:Hg;
      [discriminate|].
    apply generate_ipmt_excel_raises in Hg
      as [[Hp ->]|(y & m & Hp & [->|[->|[->|[Hout Hy]]]])]; try discriminate.
    + intros [= <-]. right. left. auto.
    + destruct e; try discriminate. intros [= <-]. right. right.
      split; [reflexivity|]. exists y, m. split; [exact Hp|]. split; [exact Hout|].
      split; [|eapply year_lookup_value_error, Hy].
      revert Hy. unfold year_lookup.
      destruct ((1 <=? y) && (y <=? 9999)); [discriminate|].
      destruct ((- 2 ^ 31 <=? y) && (y <? 2 ^ 31)) eqn:Hint; [|discriminate].
      intros _. apply andb_true_iff in Hint as [H1 H2].
      apply Z.leb_le in H1. apply Z.ltb_lt in H2. auto.
  - intros ->. reflexivity.
  - intros e -> Hp. cbn [negb]. unfold generate_ipmt_excel. rewrite Hp.
    apply parse_month_filter_message in Hp. subst e. reflexivity.
  - intros year month_num msg -> Hp Hout Hnobody. cbn [negb].
    unfold generate_ipmt_excel. rewrite Hp. cbn [mbind result_bind].
    now rewrite Hnobody, Hout.
Qed.

End ExportView.

Lemma generate_ipmt_excel_month_out_of_calendar_witness :
  exists e,
    utils.generate_ipmt_excel (fun _ _ => true) Sample.db "13-99" (Some "Engineering")
      (Some ["Juan"]) = Raise e
    /\ (e = IndexError \/ e = MultipleObjectsReturned \/ e = InvalidWorksheetName).
Proof.
  apply (generate_ipmt_excel_month_out_of_calendar (fun _ _ => true) Sample.db "13-99"
           (Some "Engineering") (Some ["Juan"]) 13 99).
  - reflexivity.
  - lia.
  - lia.
  - discriminate.
Defined.

(** The export for the month "0-01" with nobody named is answered 400,
    with the message of the date, not the one of the format. *)
Lemma generate_ipmt_bad_request_witness :
  views_read.generate_ipmt (fun _ _ => true) Sample.db
    {| views_read.q_month := Some "0-01"; views_read.q_unit := None;
       views_read.q_personnel := [] |}
  = Ok (views_read.Plain "year 0 is out of range" 400).
Proof.
  destruct (generate_ipmt_bad_request (fun _ _ => true) Sample.db
              {| views_read.q_month := Some "0-01"; views_read.q_unit := None;
                 views_read.q_personnel := [] |}) as (_ & _ & _ & Hyear).
  apply (Hyear 0 1).
  - reflexivity.
  - reflexivity.
  - reflexivity.
  - reflexivity.
Defined.

(** ** The preview *)
Section Preview.
Import utils views_read.

(** The row of an indicator is never made: the filter of its reports asks
    for [indicator.activity_name]. *)
Lemma preview_row_raises db unit year month_num names indicator :
  preview_row db unit year month_num names indicator = Raise AttributeError.
Proof. reflexivity. Qed.

(** X18.  A preview whose month parses never lists an indicator: when no
    indicator is in its scope (those of the unit, or all of them for the
    unit "all" or a name no unit has) it renders an empty list of reports,
    and otherwise it ends in the [AttributeError] of
    [indicator.activity_name], whatever reports and persons there are. *)
Theorem preview_ipmt_attribute_error db q year month_num :
  truthy (views.text (q_month q)) = true ->
  List.map int (split_on "-" (views.text (q_month q))) = [Some year; Some month_num] ->
  preview_ipmt db q
  = match preview_indicators db (preview_unit db (unit_filter_of q)) with
    | [] =>
        Ok (Render "gso_office/ipmt/ipmt_preview.html"
              {| reports := []; month_filter := views.text (q_month q);
                 unit_filter := unit_filter_of q; personnel_names := q_personnel q |})
    | _ :: _ => Raise AttributeError
    end.
Proof.
  intros Hmonth Hparse. unfold preview_ipmt. rewrite Hmonth, Hparse. cbn [negb].
  destruct (preview_indicators db (preview_unit db (unit_filter_of q))) as [|i l];
    reflexivity.
Qed.

Lemma preview_ipmt_attribute_error_witness :
  preview_ipmt Sample.db
    {| q_month := Some "2025-09"; q_unit := None; q_personnel := ["Juan"] |}
  = Raise AttributeError.
Proof.
  apply (preview_ipmt_attribute_error Sample.db
           {| q_month := Some "2025-09"; q_unit := None; q_personnel := ["Juan"] |}
           2025 9); reflexivity.
Defined.

End Preview.

(** ** More on [save_ipmt] *)
Section UpsertMore.
Import views.



(** X20.  [save_ipmt] writes no draft: however a call ends, the table of
    drafts is as it was before, and the answer or exception of the call is
    the same whatever drafts are stored, whatever the summarisation service
    says and whatever the time is. *)
Theorem save_ipmt_never_writes summary1 now1 summary2 now2 db request tbl1 tbl2 :
  fst (save_ipmt summary1 now1 db request tbl1) = tbl1
  /\ snd (save_ipmt summary1 now1 db request tbl1)
     = snd (save_ipmt summary2 now2 db request tbl2).
Proof. rewrite !save_ipmt_outcome. auto. Qed.





End UpsertMore.

(** ** More on saving accomplishment reports *)
Section WarSaveMore.
Import WorkAccomplishmentReport WarStore.

Lemma has_pk_iff k r : has_pk k r = true <-> pk r = Some k.
Proof.
  unfold has_pk. destruct (pk r) as [k'|]; [|split; discriminate].
  rewrite Z.eqb_eq. split; congruence.
Qed.

Lemma replace_row_other k new l row :
  In row l -> pk row <> Some k -> In row (replace_row k new l).
Proof.
  intros Hin Hne. unfold replace_row. apply List.in_map_iff. exists row.
  split; [|exact Hin]. destruct (has_pk k row) eqn:Hk; [|reflexivity].
  apply has_pk_iff in Hk. contradiction.
Qed.

Lemma length_replace_row k new l : length (replace_row k new l) = length l.
Proof. unfold replace_row. apply List.length_map. Qed.

(** A save that raises has written nothing. *)
Lemma war_save_raise_unchanged db_accepts uf self tbl tbl' e :
  save db_accepts uf self tbl = (tbl', Raise e) -> tbl' = tbl.
Proof.
  unfold save, Model_save.
  generalize (with_total_cost
                (Some (Decimal.add (or0 (material_cost self)) (or0 (labor_cost self)))) self).
  intros s. destruct uf as [[|f fs]|].
  - discriminate.
  - destruct (assign_fields (f :: fs) s s) as [?|]; [|now intros [= <- _]].
    destruct (pk s) as [k|]; [|now intros [= <- _]].
    destruct (prepare _ s) as [row|e']; [|now intros [= <- _]].
    destruct (List.find (has_pk k) (rows tbl)) as [old|]; [|now intros [= <- _]].
    destruct (assign_fields (f :: fs) row old) as [new|]; [|now intros [= <- _]].
    destruct (_ || _); [now intros [= <- _]|discriminate].
  - destruct (prepare _ s) as [row|e']; [|now intros [= <- _]].
    destruct (pk s) as [k|].
    + destruct (_ || _); [now intros [= <- _]|].
      destruct (existsb (has_pk k) (rows tbl)); discriminate.
    + destruct (_ || _); [now intros [= <- _]|discriminate].
Qed.

(** X24.  A save of an accomplishment report that raises leaves the table
    as it was; a save that succeeds removes no row and leaves every stored
    row with another primary key as it was, adding at most one row. *)
Theorem war_save_touches_one_row db_accepts uf self tbl tbl' r :
  save db_accepts uf self tbl = (tbl', r) ->
  match r with
  | Raise _ => tbl' = tbl
  | Ok self' =>
      (forall row, In row (rows tbl) -> pk row <> pk self' -> In row (rows tbl'))
      /\ (length (rows tbl) <= length (rows tbl') <= S (length (rows tbl)))%nat
  end.
Proof.
  unfold save, Model_save.
  generalize (with_total_cost
                (Some (Decimal.add (or0 (material_cost self)) (or0 (labor_cost self)))) self).
  intros s. destruct uf as [[|f fs]|].
  - intros [= <- <-]. split; [auto|lia].
  - destruct (assign_fields (f :: fs) s s) as [?|]; [|now intros [= <- <-]].
    destruct (pk s) as [k|] eqn:Hk; [|now intros [= <- <-]].
    destruct (prepare _ s) as [row|e']; [|now intros [= <- <-]].
    destruct (List.find (has_pk k) (rows tbl)) as [old|]; [|now intros [= <- <-]].
    destruct (assign_fields (f :: fs) row old) as [new|]; [|now intros [= <- <-]].
    destruct (_ || _); [now intros [= <- <-]|].
    intros [= <- <-]. cbn [rows]. rewrite length_replace_row, Hk. split; [|lia].
    intros r Hin Hne. now apply replace_row_other.
  - destruct (prepare _ s) as [row|e']; [|now intros [= <- <-]].
    destruct (pk s) as [k|] eqn:Hk.
    + destruct (_ || _); [now intros [= <- <-]|].
      destruct (existsb (has_pk k) (rows tbl)); intros [= <- <-]; cbn [rows].
      * rewrite length_replace_row, Hk. split; [|lia].
        intros r Hin Hne. now apply replace_row_other.
      * rewrite List.length_app. cbn [length]. split; [|lia].
        intros r Hin _. apply List.in_or_app. now left.
    + destruct (_ || _); [now intros [= <- <-]|].
      intros [= <- <-]. cbn [rows]. rewrite List.length_app. cbn [length]. split; [|lia].
      intros r Hin _. apply List.in_or_app. now left.
Qed.

Lemma assign_pk f src dst d : assign f src dst = Some d -> pk d = pk dst.
Proof.
  unfold assign.
  repeat match goal with
  | |- context [String.eqb f ?c] =>
      destruct (String.eqb f c); [intros [= <-]; reflexivity|]
  end.
  discriminate.
Qed.

Lemma assign_fields_pk fs : forall src dst d,
  assign_fields fs src dst = Some d -> pk d = pk dst.
Proof.
  induction fs as [|f fs IH]; intros src dst d; cbn [assign_fields].
  - now intros [= <-].
  - destruct (assign f src dst) as [d0|] eqn:Hf; [|discriminate].
    intros Hd. apply IH in Hd. apply assign_pk in Hf. congruence.
Qed.

Lemma map_pk_replace_row k new l :
  pk new = Some k -> List.map pk (replace_row k new l) = List.map pk l.
Proof.
  intros Hnew. unfold replace_row. rewrite List.map_map. apply List.map_ext.
  intros r. destruct (has_pk k r) eqn:Hk; [|reflexivity].
  apply has_pk_iff in Hk. congruence.
Qed.

Lemma wf_replace_row k new tbl :
  pk new = Some k -> k < next_pk tbl -> WarTable.wf tbl ->
  WarTable.wf {| rows := replace_row k new (rows tbl); next_pk := next_pk tbl |}.
Proof.
  intros Hnew Hlt [Hnd Hall]. split; cbn [rows next_pk].
  - now rewrite map_pk_replace_row.
  - unfold replace_row. rewrite List.Forall_map. eapply List.Forall_impl; [|exact Hall].
    intros r Hr. cbn beta in *. destruct (has_pk k r); [eauto|exact Hr].
Qed.

Lemma wf_append new k n tbl :
  pk new = Some k -> k < n -> next_pk tbl <= n ->
  ~ In (Some k) (List.map pk (rows tbl)) ->
  WarTable.wf tbl ->
  WarTable.wf {| rows := rows tbl ++ [new]; next_pk := n |}.
Proof.
  intros Hnew Hlt Hle Hfresh [Hnd Hall]. split; cbn [rows next_pk].
  - rewrite List.map_app. cbn [List.map]. apply NoDup_app. split; [exact Hnd|].
    split; [|apply NoDup_singleton].
    intros x Hx Hin. apply list_elem_of_In in Hin. destruct Hin as [Heq|[]].
    apply Hfresh. apply list_elem_of_In in Hx. congruence.
  - apply List.Forall_app. split.
    + eapply List.Forall_impl; [|exact Hall]. intros r (k' & Hk' & Hlt'). exists k'.
      split; [exact Hk'|lia].
    + constructor; [eauto|constructor].
Qed.

Lemma wf_row_below tbl r k :
  WarTable.wf tbl -> In r (rows tbl) -> pk r = Some k -> k < next_pk tbl.
Proof.
  intros [_ Hall] Hin Hk. rewrite List.Forall_forall in Hall.
  destruct (Hall r Hin) as (k' & Hk' & Hlt). congruence.
Qed.

Lemma save_keeps_wf db_accepts uf self tbl tbl' self' :
  WarTable.wf tbl ->
  save db_accepts uf self tbl = (tbl', Ok self') ->
  WarTable.wf tbl'.
Proof.
  intros Hwf. unfold save, Model_save.
  generalize (with_total_cost
                (Some (Decimal.add (or0 (material_cost self)) (or0 (labor_cost self)))) self).
  intros s. destruct uf as [[|f fs]|].
  - now intros [= <- _].
  - destruct (assign_fields (f :: fs) s s) as [?|]; [|discriminate].
    destruct (pk s) as [k|] eqn:Hk; [|discriminate].
    destruct (prepare _ s) as [row|e']; [|discriminate].
    destruct (List.find (has_pk k) (rows tbl)) as [old|] eqn:Hfind; [|discriminate].
    destruct (assign_fields (f :: fs) row old) as [new|] eqn:Hnew; [|discriminate].
    destruct (_ || _); [discriminate|].
    intros [= <- _]. apply List.find_some in Hfind as [Hin Hold].
    apply has_pk_iff in Hold. apply assign_fields_pk in Hnew.
    apply wf_replace_row; [congruence| |exact Hwf]. eapply wf_row_below; eauto.
  - destruct (prepare _ s) as [row|e'] eqn:Hp; [|discriminate].
    apply prepare_pk in Hp.
    destruct (pk s) as [k|] eqn:Hk.
    + destruct (_ || _); [discriminate|].
      destruct (existsb (has_pk k) (rows tbl)) eqn:Hex; intros [= <- _].
      * apply List.existsb_exists in Hex as (r & Hin & Hr). apply has_pk_iff in Hr.
        apply wf_replace_row; [exact Hp| |exact Hwf]. eapply wf_row_below; eauto.
      * apply (wf_append row k); [exact Hp|lia|lia| |exact Hwf].
        intros Hin. apply List.in_map_iff in Hin as (r & Hr & Hin).
        apply Bool.not_true_iff_false in Hex. apply Hex. apply List.existsb_exists.
        exists r. split; [exact Hin|]. now apply has_pk_iff.
    + destruct (_ || _); [discriminate|].
      intros [= <- _]. apply (wf_append _ (next_pk tbl)); [reflexivity|lia|lia| |exact Hwf].
      intros Hin. apply List.in_map_iff in Hin as (r & Hr & Hin).
      pose proof (wf_row_below tbl r (next_pk tbl) Hwf Hin Hr). lia.
Qed.

Lemma reachable_wf db_accepts tbl :
  reachable db_accepts tbl -> WarTable.wf tbl.
Proof.
  induction 1 as [n|uf self tbl tbl' self' _ IH Hsave].
  - split; constructor.
  - eapply save_keeps_wf; eauto.
Qed.

(** X25.  In every table that saves build from an empty one, whatever the
    instances and whatever columns each save names, each stored report has
    a primary key and no two stored reports share one: a save never
    duplicates a row, and a report saved without a key gets a key that no
    stored report has. *)
Theorem reachable_primary_keys db_accepts tbl :
  reachable db_accepts tbl ->
  NoDup (List.map pk (rows tbl)) /\ Forall (fun r => pk r <> None) (rows tbl).
Proof.
  intros Hreach. destruct (reachable_wf db_accepts tbl Hreach) as [Hnd Hall].
  split; [exact Hnd|]. eapply List.Forall_impl; [|exact Hall].
  intros r (k & Hk & _). congruence.
Qed.

(** The table is the one of a whole-row save followed by a save of the
    material cost alone. *)
Lemma reachable_primary_keys_witness :
  NoDup (List.map pk
           [with_costs (Some (Decimal.of_centavos 200000)) (Some (Decimal.of_centavos 25050))
              (Some (Decimal.of_centavos 175050)) Sample.stored_road_repair])
  /\ Forall (fun r => pk r <> None)
       [with_costs (Some (Decimal.of_centavos 200000)) (Some (Decimal.of_centavos 25050))
          (Some (Decimal.of_centavos 175050)) Sample.stored_road_repair].
Proof.
  apply (reachable_primary_keys (fun _ _ => true)
           {| rows := [with_costs (Some (Decimal.of_centavos 200000))
                         (Some (Decimal.of_centavos 25050))
                         (Some (Decimal.of_centavos 175050)) Sample.stored_road_repair];
              next_pk := 12 |}).
  apply (reach_save (fun _ _ => true) (Some ["material_cost"]) Sample.repriced_road_repair
           {| rows := [Sample.stored_road_repair]; next_pk := 12 |} _
           (with_total_cost
              (Some {| Decimal.coefficient := 225050; Decimal.exponent := -2 |})
              Sample.repriced_road_repair)).
  - apply (reach_save (fun _ _ => true) None Sample.road_repair Sample.no_wars _
             (with_pk 11
                (with_total_cost
                   (Some {| Decimal.coefficient := 175050; Decimal.exponent := -2 |})
                   Sample.road_repair)) (reach_empty _ 11)).
    reflexivity.
  - reflexivity.
Defined.

(** X26.  A report always has a generated description, never the empty
    text: its own when that is not empty, else a sentence naming the id and
    the description of the request it came from, else a sentence naming its
    project or "N/A". *)
Theorem generate_description_never_empty w :
  generate_description w <> ""
  /\ (description w <> "" -> generate_description w = description w)
  /\ (description w = "" -> forall r, request w = Some r ->
      generate_description w
      = "WAR generated from request " +:+ str (ServiceRequest.pk r) +:+ ": "
        +:+ ServiceRequest.description r)
  /\ (description w = "" -> request w = None ->
      generate_description w = "WAR for project " +:+ project_label (project_name w)).
Proof.
  unfold generate_description. destruct (description w) as [|c d] eqn:Hd; cbn [truthy].
  - split; [|split; [congruence|split]].
    + destruct (request w); rewrite append_cons; discriminate.
    + intros _ r ->. reflexivity.
    + intros _ ->. reflexivity.
  - split; [discriminate|]. split; [reflexivity|]. split; discriminate.
Qed.

End WarSaveMore.

(** ** The description task *)
Section DescriptionTask.
Import WorkAccomplishmentReport WarStore tasks.
Variable db_accepts : list t -> t -> bool.
Variable generate_war_description : string -> string -> list string -> result string.

(** X27.  The description task never saves: it asks for [war.activity_name]
    before it calls the description service, and the report has no such
    attribute.  Whatever the id, the table is left as it was; the task
    answers "WAR <id> not found" when no report has the id and ends in
    [AttributeError] when one report has it. *)
Theorem generate_war_description_task_never_saves war_id tbl :
  fst (generate_war_description_task db_accepts generate_war_description war_id tbl) = tbl
  /\ (List.filter (has_pk war_id) (rows tbl) = [] ->
      snd (generate_war_description_task db_accepts generate_war_description war_id tbl)
      = Ok ("WAR " +:+ str war_id +:+ " not found"))
  /\ (forall war,
        List.filter (has_pk war_id) (rows tbl) = [war] ->
        snd (generate_war_description_task db_accepts generate_war_description war_id tbl)
        = Raise AttributeError).
Proof.
  unfold generate_war_description_task.
  destruct (List.filter (has_pk war_id) (rows tbl)) as [|war [|? ?]]; cbn [qs_get];
    repeat split; try reflexivity; discriminate.
Qed.

End DescriptionTask.

Lemma generate_war_description_task_never_saves_witness :
  tasks.generate_war_description_task (fun _ _ => true)
    (fun activity unit names => Ok ("Worked on " +:+ activity)) 11
    {| WorkAccomplishmentReport.rows := [Sample.stored_road_repair];
       WorkAccomplishmentReport.next_pk := 12 |}
  = ({| WorkAccomplishmentReport.rows := [Sample.stored_road_repair];
        WorkAccomplishmentReport.next_pk := 12 |}, Raise AttributeError).
Proof.
  destruct (generate_war_description_task_never_saves (fun _ _ => true)
              (fun activity unit names => Ok ("Worked on " +:+ activity)) 11
              {| WorkAccomplishmentReport.rows := [Sample.stored_road_repair];
                 WorkAccomplishmentReport.next_pk := 12 |}) as (Hfst & _ & Hsnd).
  specialize (Hsnd Sample.stored_road_repair eq_refl).
  destruct (tasks.generate_war_description_task _ _ _ _) as [tbl' r].
  cbn [fst snd] in Hfst, Hsnd. now rewrite Hfst, Hsnd.
Defined.

(** ** Evaluations for the further properties *)
Section Samples2.
Import views.

(** The sample request twice, the second time with another summarisation
    service and a day later: both calls end in [AttributeError] and the
    stored draft is as it was. *)
Example save_ipmt_twice :
  save_ipmt Sample.summary Sample.first_of_october Sample.db Sample.post Sample.stale_drafts
  = (Sample.stale_drafts, Raise AttributeError)
  /\ save_ipmt Sample3.other_summary Sample.second_of_october Sample.db Sample.post
       (fst (save_ipmt Sample.summary Sample.first_of_october Sample.db Sample.post
               Sample.stale_drafts))
     = (Sample.stale_drafts, Raise AttributeError).
Proof. split; reflexivity. Qed.




Lemma collect_ipmt_reports_returns_witness :
  exists rows,
    utils.collect_ipmt_reports Sample.db 2025 9 (Some "Engineering")
      (Some ["Juan Dela Cruz"]) = Ok rows
    /\ forall unit,
         List.filter (fun u => iexact (Unit.name u) (Some "Engineering")) (units Sample.db)
         = [unit] ->
         List.map utils.indicator rows
         = List.map SuccessIndicator.code (utils.active_indicators Sample.db unit).
Proof.
  apply (collect_ipmt_reports_returns Sample.db 2025 9 (Some "Engineering")
           (Some ["Juan Dela Cruz"])).
  - vm_compute. lia.
  - constructor; [discriminate|constructor].
  - lia.
Defined.

Lemma war_save_touches_one_row_witness :
  let tbl := {| WorkAccomplishmentReport.rows := [Sample.stored_road_repair];
                WorkAccomplishmentReport.next_pk := 12 |} in
  let out := WorkAccomplishmentReport.save (fun _ _ => true) None Sample.road_repair tbl in
  length (WorkAccomplishmentReport.rows (fst out)) = 2%nat
  /\ match snd out with
     | Raise _ => fst out = tbl
     | Ok self' =>
         (forall row,
            In row (WorkAccomplishmentReport.rows tbl) ->
            WorkAccomplishmentReport.pk row <> WorkAccomplishmentReport.pk self' ->
            In row (WorkAccomplishmentReport.rows (fst out)))
         /\ (length (WorkAccomplishmentReport.rows tbl)
             <= length (WorkAccomplishmentReport.rows (fst out))
             <= S (length (WorkAccomplishmentReport.rows tbl)))%nat
     end.
Proof.
  intros tbl out. split; [reflexivity|].
  apply (war_save_touches_one_row (fun _ _ => true) None Sample.road_repair tbl (fst out)
           (snd out)).
  reflexivity.
Defined.

End Samples2.
